(** * price_apis: provider adapters that normalise price data

    A shallow embedding of [src/price_apis.py].  The Python values that
    [requests.Response.json()] hands to the adapters are modelled by
    [pyval]; Python floats are IEEE-754 binary64 numbers, modelled by
    [spec_float] at precision 53 and maximal exponent 1024, so that
    every arithmetic step and every [format] call rounds as CPython
    does.  The adapters run in a small monad that threads the trace of
    observable events (environment reads, HTTP requests, log lines)
    and propagates Python exceptions.

    Limits of the model: text is ASCII; every request is answered
    (transport errors of [requests] are left out); the arguments of a
    constructor are strings; slicing a dict raises [TypeError], as
    before Python 3.12. *)

From Stdlib Require Import ZArith List String Ascii Bool Lia.
From Stdlib Require Import Floats.SpecFloat.
From Stdlib Require Import DecimalString DecimalN.
Import ListNotations.

Set Warnings "-register-all".

Local Open Scope string_scope.
Local Open Scope Z_scope.

(** ** Python floats *)

Module PyFloat.

Definition prec : Z := 53.
Definition emax : Z := 1024.

Definition div := SFdiv prec emax.
Definition sub := SFsub prec emax.
Definition mul := SFmul prec emax.

(** [float(n)] for a Python [int]: the nearest double, ties to even;
    [None] stands for [OverflowError]. *)
Definition of_int (n : Z) : option spec_float :=
  match binary_normalize prec emax n 0 false with
  | S754_infinity _ => None
  | f => Some f
  end.

(** The double nearest to [m * 10^e]: what [float("...")] and the
    JSON decoder compute for a decimal literal. *)
Definition of_decimal (neg : bool) (m : Z) (e : Z) : spec_float :=
  match m with
  | Zpos p =>
      match e with
      | Zneg k => SFdiv prec emax (S754_finite neg p 0)
                    (S754_finite false (Pos.pow 10 k) 0)
      | _ => binary_normalize prec emax
               (if neg then - (m * 10 ^ e) else m * 10 ^ e) 0 neg
      end
  | _ => S754_zero neg
  end.

Definition is_zero (f : spec_float) : bool :=
  match f with S754_zero _ => true | _ => false end.

Definition is_finite (f : spec_float) : bool :=
  match f with S754_zero _ | S754_finite _ _ _ => true | _ => false end.

Definition is_finite_nonzero (f : spec_float) : bool :=
  match f with S754_finite _ _ _ => true | _ => false end.

End PyFloat.

(** ** [format(x, ".Nf")] and [format(x, ",.Nf")] *)

Module Fmt.

Definition digit_char (d : Z) : ascii :=
  ascii_of_nat (48 + Z.to_nat d).

(** The decimal digits of a natural number, most significant first. *)
Definition int_digits (n : Z) : list ascii :=
  list_ascii_of_string (NilZero.string_of_uint (N.to_uint (Z.to_N n))).

(** The last [d] decimal digits of [n], zero padded. *)
Fixpoint frac_digits (d : nat) (n : Z) : list ascii :=
  match d with
  | O => []
  | S d' => frac_digits d' (n / 10) ++ [digit_char (n mod 10)]
  end.

(** Thousands separators, on the reversed digit list. *)
Fixpoint group_rev (l : list ascii) : list ascii :=
  match l with
  | a :: b :: c :: ((_ :: _) as rest) =>
      a :: b :: c :: ","%char :: group_rev rest
  | _ => l
  end.

Definition group (l : list ascii) : list ascii :=
  rev (group_rev (rev l)).

(** [num / den] rounded to the nearest integer, ties to even
    ([den > 0], [num >= 0]). *)
Definition round_half_even (num den : Z) : Z :=
  let q := num / den in
  let r := num mod den in
  match 2 * r ?= den with
  | Lt => q
  | Gt => q + 1
  | Eq => if Z.even q then q else q + 1
  end.

(** The magnitude [m * 2^e] scaled by [10^d] and rounded. *)
Definition scaled (d : nat) (m : positive) (e : Z) : Z :=
  match e with
  | Zneg k => round_half_even (Zpos m * 10 ^ Z.of_nat d) (2 ^ Zpos k)
  | _ => Zpos m * 2 ^ e * 10 ^ Z.of_nat d
  end.

Definition sign_str (s : bool) : list ascii :=
  if s then ["-"%char] else [].

Definition fixed_digits (grouped : bool) (d : nat) (s : bool) (n : Z)
  : list ascii :=
  let ip := int_digits (n / 10 ^ Z.of_nat d) in
  sign_str s ++ (if grouped then group ip else ip)
    ++ match d with
       | O => []
       | _ => "."%char :: frac_digits d (n mod 10 ^ Z.of_nat d)
       end.

(** The float presentation type [f] with precision [d], with or
    without the [,] grouping option. *)
Definition fixed (grouped : bool) (d : nat) (f : spec_float) : string :=
  match f with
  | S754_nan => "nan"
  | S754_infinity s => string_of_list_ascii (sign_str s) ++ "inf"
  | S754_zero s => string_of_list_ascii (fixed_digits grouped d s 0)
  | S754_finite s m e =>
      string_of_list_ascii (fixed_digits grouped d s (scaled d m e))
  end.

End Fmt.

(** ** Python values *)

(** What [json.loads] builds.  A dict is kept as an association list in
    insertion order (the order [items()] iterates in); lookups take the
    first binding of a key. *)
Inductive pyval :=
| PNone
| PBool (b : bool)
| PInt (n : Z)
| PFloat (f : spec_float)
| PStr (s : string)
| PList (l : list pyval)
| PDict (kv : list (string * pyval)).

Inductive exn_class :=
| KeyError | TypeError | ValueError | AttributeError | IndexError
| ZeroDivisionError | OverflowError | RuntimeError | NotImplementedError
| JSONDecodeError.

(** An exception: its class and, where the source builds it, its
    message.  [None] is a text produced by the interpreter. *)
Record exn := Exn { exn_cls : exn_class; exn_msg : option string }.

Definition exn_class_eqb (a b : exn_class) : bool :=
  match a, b with
  | KeyError, KeyError | TypeError, TypeError | ValueError, ValueError
  | AttributeError, AttributeError | IndexError, IndexError
  | ZeroDivisionError, ZeroDivisionError | OverflowError, OverflowError
  | RuntimeError, RuntimeError | NotImplementedError, NotImplementedError
  | JSONDecodeError, JSONDecodeError => true
  | _, _ => false
  end.

Inductive result (A : Type) :=
| Ok (a : A)
| Raise (e : exn).
Arguments Ok {A} a.
Arguments Raise {A} e.

Definition builtin_error {A} (c : exn_class) : result A :=
  Raise (Exn c None).

(** The error taxonomy of the specification, on the exception classes
    the source raises. *)
Definition ConfigurationError : exn_class := RuntimeError.
Definition ValidationError : exn_class := ValueError.

Fixpoint assoc {A} (k : string) (kv : list (string * A)) : option A :=
  match kv with
  | [] => None
  | (k', v) :: rest => if String.eqb k k' then Some v else assoc k rest
  end.

Module Py.

(** [v[k]] for a string literal [k]. *)
Definition getitem (v : pyval) (k : string) : result pyval :=
  match v with
  | PDict kv =>
      match assoc k kv with
      | Some x => Ok x
      | None => builtin_error KeyError
      end
  | _ => builtin_error TypeError
  end.

Fixpoint nth_item {A} (l : list A) (i : nat) : option A :=
  match l, i with
  | [], _ => None
  | x :: _, O => Some x
  | _ :: r, S j => nth_item r j
  end.

Definition index_of (len : nat) (i : Z) : option nat :=
  if (0 <=? i) && (i <? Z.of_nat len) then Some (Z.to_nat i)
  else if (i <? 0) && (- Z.of_nat len <=? i)
       then Some (Z.to_nat (Z.of_nat len + i))
       else None.

Definition int_of_bool (b : bool) : Z := if b then 1 else 0.

(** An index: an [int], or a [bool] taken as one. *)
Definition as_index (k : pyval) : option Z :=
  match k with
  | PInt i => Some i
  | PBool b => Some (int_of_bool b)
  | _ => None
  end.

(** [v[k]] for a key that is itself a value. *)
Definition subscript (v k : pyval) : result pyval :=
  match v with
  | PDict kv =>
      match k with
      | PStr s => getitem v s
      | PList _ | PDict _ => builtin_error TypeError
      | _ => builtin_error KeyError
      end
  | PList l =>
      match as_index k with
      | Some i =>
          match index_of (List.length l) i with
          | Some n => match nth_item l n with
                      | Some x => Ok x
                      | None => builtin_error IndexError
                      end
          | None => builtin_error IndexError
          end
      | None => builtin_error TypeError
      end
  | PStr s =>
      match as_index k with
      | Some i =>
          match index_of (String.length s) i with
          | Some n => match String.get n s with
                      | Some c => Ok (PStr (String c EmptyString))
                      | None => builtin_error IndexError
                      end
          | None => builtin_error IndexError
          end
      | None => builtin_error TypeError
      end
  | _ => builtin_error TypeError
  end.

(** The bound method [v.get]: only a dict has it. *)
Definition bound_get (v : pyval) : result (string -> pyval -> pyval) :=
  match v with
  | PDict kv =>
      Ok (fun k default =>
            match assoc k kv with
            | Some x => x
            | None => default
            end)
  | _ => builtin_error AttributeError
  end.

(** [v.get(k, default)] *)
Definition get (v : pyval) (k : string) (default : pyval) : result pyval :=
  match bound_get v with
  | Ok g => Ok (g k default)
  | Raise e => Raise e
  end.

(** [v.items()]. *)
Definition items (v : pyval) : result (list (string * pyval)) :=
  match v with
  | PDict kv => Ok kv
  | _ => builtin_error AttributeError
  end.

(** [s.split(',')]. *)
Fixpoint split_comma (s : string) : list string :=
  match s with
  | EmptyString => [EmptyString]
  | String c rest =>
      if Ascii.eqb c ","%char then EmptyString :: split_comma rest
      else match split_comma rest with
           | h :: t => String c h :: t
           | [] => [String c EmptyString]
           end
  end.

(** [','.join(l)]. *)
Fixpoint join_comma (l : list string) : string :=
  match l with
  | [] => EmptyString
  | [x] => x
  | x :: rest => x ++ "," ++ join_comma rest
  end.

Fixpoint firstn_items {A} (n : nat) (l : list A) : list A :=
  match n, l with
  | S m, x :: r => x :: firstn_items m r
  | _, _ => []
  end.

(** [v[:n]]: a prefix of a string or of a list; a dict rejects the
    slice as a key, the other values are not subscriptable. *)
Definition slice_to (v : pyval) (n : nat) : result pyval :=
  match v with
  | PStr s => Ok (PStr (substring 0 n s))
  | PList l => Ok (PList (firstn_items n l))
  | _ => builtin_error TypeError
  end.

(** The exact value of an [int] as an unrounded float. *)
Definition exact_int (n : Z) : spec_float :=
  match n with
  | Z0 => S754_zero false
  | Zpos p => S754_finite false p 0
  | Zneg p => S754_finite true p 0
  end.

Definition overflow_checked (f : spec_float) : result spec_float :=
  match f with
  | S754_infinity _ => builtin_error OverflowError
  | _ => Ok f
  end.

Definition float_of_int (n : Z) : result spec_float :=
  match PyFloat.of_int n with
  | Some f => Ok f
  | None => builtin_error OverflowError
  end.

(** [a / b] on JSON values.  Two ints divide exactly and round once;
    an int meeting a float is converted first. *)
Definition truediv (a b : pyval) : result spec_float :=
  let as_num v :=
    match v with
    | PInt n => Some (inl n)
    | PBool b => Some (inl (int_of_bool b))
    | PFloat f => Some (inr f)
    | _ => None
    end in
  let fdiv x y :=
    if PyFloat.is_zero y then builtin_error ZeroDivisionError
    else Ok (PyFloat.div x y) in
  match as_num a, as_num b with
  | Some (inl m), Some (inl n) =>
      if n =? 0 then builtin_error ZeroDivisionError
      else overflow_checked (PyFloat.div (exact_int m) (exact_int n))
  | Some (inl m), Some (inr y) =>
      match float_of_int m with
      | Ok x => fdiv x y
      | Raise e => Raise e
      end
  | Some (inr x), Some (inl n) =>
      match float_of_int n with
      | Ok y => fdiv x y
      | Raise e => Raise e
      end
  | Some (inr x), Some (inr y) => fdiv x y
  | _, _ => builtin_error TypeError
  end.

(** [format(v, ",.Nf")] / [format(v, ".Nf")]. *)
Definition format_f (grouped : bool) (d : nat) (v : pyval) : result string :=
  match v with
  | PFloat f => Ok (Fmt.fixed grouped d f)
  | PInt n =>
      match float_of_int n with
      | Ok f => Ok (Fmt.fixed grouped d f)
      | Raise e => Raise e
      end
  | PBool b => Ok (Fmt.fixed grouped d (exact_int (int_of_bool b)))
  | PStr _ => builtin_error ValueError
  | _ => builtin_error TypeError
  end.

End Py.

(** ** [float(s)] on text *)

Module FloatParse.

Definition code (c : ascii) : nat := nat_of_ascii c.

Definition is_digit (c : ascii) : bool :=
  (Nat.leb 48 (code c) && Nat.leb (code c) 57)%bool.

(** The ASCII characters that [str.strip()] removes. *)
Definition is_space (c : ascii) : bool :=
  ((Nat.leb 9 (code c) && Nat.leb (code c) 13)
   || (Nat.leb 28 (code c) && Nat.leb (code c) 32))%bool.

Definition lower (c : ascii) : ascii :=
  if (Nat.leb 65 (code c) && Nat.leb (code c) 90)%bool
  then ascii_of_nat (code c + 32) else c.

Definition digit_val (c : ascii) : Z := Z.of_nat (code c - 48).

Fixpoint lstrip (l : list ascii) : list ascii :=
  match l with
  | c :: r => if is_space c then lstrip r else l
  | [] => []
  end.

Definition strip (l : list ascii) : list ascii :=
  rev (lstrip (rev (lstrip l))).

(** The digits after a first one: [(["_"] digit)*].  Returns the
    value accumulated, the number of digits read and the rest. *)
Fixpoint more_digits (l : list ascii) (acc : Z) (cnt : Z)
  : Z * Z * list ascii :=
  match l with
  | c :: r =>
      if is_digit c then more_digits r (10 * acc + digit_val c) (cnt + 1)
      else if Ascii.eqb c "_"%char then
        match r with
        | c' :: r' =>
            if is_digit c'
            then more_digits r' (10 * acc + digit_val c') (cnt + 1)
            else (acc, cnt, l)
        | [] => (acc, cnt, l)
        end
      else (acc, cnt, l)
  | [] => (acc, cnt, l)
  end.

(** [digitpart ::= digit (["_"] digit)*] *)
Definition digitpart (l : list ascii) : option (Z * Z * list ascii) :=
  match l with
  | c :: r => if is_digit c then Some (more_digits r (digit_val c) 1) else None
  | [] => None
  end.

Definition sign (l : list ascii) : bool * list ascii :=
  match l with
  | c :: r =>
      if Ascii.eqb c "-"%char then (true, r)
      else if Ascii.eqb c "+"%char then (false, r)
      else (false, l)
  | [] => (false, l)
  end.

(** [exponent ::= ("e" | "E") [sign] digitpart], up to the end. *)
Definition exponent (l : list ascii) : option Z :=
  match l with
  | [] => Some 0
  | c :: r =>
      if Ascii.eqb (lower c) "e"%char then
        let '(neg, r1) := sign r in
        match digitpart r1 with
        | Some (v, _, []) => Some (if neg then - v else v)
        | _ => None
        end
      else None
  end.

(** [floatnumber]: mantissa digits and decimal exponent. *)
Definition number (l : list ascii) : option (Z * Z) :=
  let '(ip, l1) :=
    match digitpart l with
    | Some (v, _, r) => (Some v, r)
    | None => (None, l)
    end in
  let '(dot, fp, l2) :=
    match l1 with
    | c :: r =>
        if Ascii.eqb c "."%char then
          match digitpart r with
          | Some (v, n, r') => (true, Some (v, n), r')
          | None => (true, None, r)
          end
        else (false, None, l1)
    | [] => (false, None, l1)
    end in
  match ip, fp with
  | None, None => None
  | _, _ =>
      let i := match ip with Some v => v | None => 0 end in
      let '(f, n) := match fp with Some vn => vn | None => (0, 0) end in
      match exponent l2 with
      | Some e => Some (i * 10 ^ n + f, e - n)
      | None => None
      end
  end.

Definition float_of_string (s : string) : option spec_float :=
  let '(neg, body) := sign (strip (list_ascii_of_string s)) in
  let word := string_of_list_ascii (map lower body) in
  if (String.eqb word "inf" || String.eqb word "infinity")%bool
  then Some (S754_infinity neg)
  else if String.eqb word "nan" then Some S754_nan
  else match number body with
       | Some (m, e) => Some (PyFloat.of_decimal neg m e)
       | None => None
       end.

End FloatParse.

Module PyConv.

(** [float(v)]. *)
Definition float (v : pyval) : result spec_float :=
  match v with
  | PFloat f => Ok f
  | PInt n => Py.float_of_int n
  | PBool b => Ok (Py.exact_int (Py.int_of_bool b))
  | PStr s =>
      match FloatParse.float_of_string s with
      | Some f => Ok f
      | None => builtin_error ValueError
      end
  | _ => builtin_error TypeError
  end.

End PyConv.

(** ** Effects: environment, network, log *)

Record request := {
  url : string;
  params : list (string * string);
  headers : list (string * string)
}.

(** A [requests.Response]: its text, and what [json.loads] makes of
    it ([None] when the text is not JSON). *)
Record response := {
  text : string;
  decoded : option pyval
}.

(** The normalised record [dict(symbol=.., price=.., change_24h=..)]. *)
Record price_record := {
  symbol : string;
  price : string;
  change_24h : string
}.

Inductive level := INFO | ERROR.

(** A log line: a text, or the values an f-string renders. *)
Inductive log_msg :=
| LogText (s : string)
| LogFetching (symbol_map : list (string * string)) (stocks : string)
| LogRecords (l : list price_record).

Inductive event :=
| EnvRead (name : string)
| HttpGet (r : request)
| Log (l : level) (m : log_msg).

(** The outside of the process: [os.environ] and the providers. *)
Record world := {
  environ : string -> option string;
  network : request -> response
}.

Class Monad (m : Type -> Type) := {
  ret : forall {A}, A -> m A;
  bind : forall {A B}, m A -> (A -> m B) -> m B
}.

Notation "x <- c1 ;; c2" := (bind c1 (fun x => c2))
  (at level 61, c1 at next level, right associativity).
Notation "' pat <- c1 ;; c2" := (bind c1 (fun x => match x with pat => c2 end))
  (at level 61, pat pattern, c1 at next level, right associativity).
Notation "c1 ;; c2" := (bind c1 (fun _ => c2))
  (at level 61, right associativity).

#[export] Instance result_monad : Monad result := {
  ret := @Ok;
  bind := fun A B r k => match r with Ok a => k a | Raise e => Raise e end
}.

(** A computation reads the world and yields a result together with
    the events it caused, in order. *)
Definition M (A : Type) : Type := world -> result A * list event.

#[export] Instance M_monad : Monad M := {
  ret := fun A a _ => (Ok a, []);
  bind := fun A B c k w =>
    match c w with
    | (Ok a, t1) => let '(r, t2) := k a w in (r, (t1 ++ t2)%list)
    | (Raise e, t1) => (Raise e, t1)
    end
}.

Definition lift {A} (r : result A) : M A := fun _ => (r, []).

Definition raise {A} (c : exn_class) (msg : string) : M A :=
  fun _ => (Raise (Exn c (Some msg)), []).

(** [try: body  except cls: handler] *)
Definition try_except {A} (cls : exn_class) (body : M A) (handler : M A)
  : M A :=
  fun w =>
    match body w with
    | (Raise e, t1) =>
        if exn_class_eqb (exn_cls e) cls
        then let '(r, t2) := handler w in (r, (t1 ++ t2)%list)
        else (Raise e, t1)
    | ok => ok
    end.

(** [for x in xs: acc = body(x, acc)] *)
Fixpoint for_each {A S} (xs : list A) (body : A -> S -> M S) (acc : S)
  : M S :=
  match xs with
  | [] => ret acc
  | x :: rest => acc' <- body x acc ;; for_each rest body acc'
  end.

(** [os.environ[name]] *)
Definition os_environ (name : string) : M string :=
  fun w =>
    (match environ w name with
     | Some v => Ok v
     | None => builtin_error KeyError
     end, [EnvRead name]).

(** [requests.get(url, params=.., headers=..)] *)
Definition requests_get (r : request) : M response :=
  fun w => (Ok (network w r), [HttpGet r]).

(** [response.json()] *)
Definition json (r : response) : result pyval :=
  match decoded r with
  | Some v => Ok v
  | None => builtin_error JSONDecodeError
  end.

Definition logger_info (m : log_msg) : M unit :=
  fun _ => (Ok tt, [Log INFO m]).

Definition logger_error (m : log_msg) : M unit :=
  fun _ => (Ok tt, [Log ERROR m]).

Definition is_http (e : event) : bool :=
  match e with HttpGet _ => true | _ => false end.

Definition is_env_read (e : event) : bool :=
  match e with EnvRead _ => true | _ => false end.

(** The environment reads made in a trace. *)
Definition env_reads (t : list event) : list event := filter is_env_read t.

(** ** The registry *)

Inductive adapter := CoinMarketCap_cls | CoinGecko_cls | FinnHub_cls
                   | AlphaVantage_cls.

Definition API_CLASS_MAP : list (string * string) :=
  [("coinmarketcap", "CoinMarketCap");
   ("coingecko", "CoinGecko");
   ("alphavantage", "AlphaVantage")].

(** The adapter classes among the attributes of the module. *)
Definition module_classes : list (string * adapter) :=
  [("CoinMarketCap", CoinMarketCap_cls);
   ("CoinGecko", CoinGecko_cls);
   ("FinnHub", FinnHub_cls);
   ("AlphaVantage", AlphaVantage_cls)].

Definition dquote : string := String (ascii_of_nat 34) EmptyString.

Definition get_api_cls (api_name : string) : M adapter :=
  match assoc api_name API_CLASS_MAP with
  | None => raise RuntimeError
              (dquote ++ api_name ++ dquote ++ " api is not implemented.")
  | Some cls_name =>
      match assoc cls_name module_classes with
      | Some c => ret c
      | None => lift (builtin_error AttributeError)
      end
  end.

(** ** The base class *)

Module PriceAPI.

Record self := {
  symbols : string;
  stocks : string;
  currency : string
}.

(** [repr] of a list of plain words, as the currency codes are. *)
Definition repr_words (l : list string) : string :=
  "[" ++ String.concat ", " (map (fun s => "'" ++ s ++ "'") l) ++ "]".

Definition validate_currency (supported_currencies : M (list string))
    (currency : string) : M unit :=
  supported <- supported_currencies ;;
  if existsb (String.eqb currency) supported then ret tt
  else raise ValueError
         ("CURRENCY=" ++ currency ++ " is not supported. Options are: "
            ++ repr_words supported ++ ".").

(** [__init__], given the [supported_currencies] of the class that
    is being instantiated. *)
Definition init (supported_currencies : M (list string))
    (symbols currency stocks : string) : M self :=
  validate_currency supported_currencies currency ;;
  ret {| symbols := symbols; stocks := stocks; currency := currency |}.

(** The property of the base class itself. *)
Definition supported_currencies : M (list string) :=
  lift (builtin_error NotImplementedError).

(** [100*((q)-1)] on the quotient of two prices. *)
Definition percent_change (q : spec_float) : spec_float :=
  PyFloat.mul (Py.exact_int 100) (PyFloat.sub q (Py.exact_int 1)).

End PriceAPI.

(** ** CoinMarketCap *)

Module CoinMarketCap.

Record self := {
  base : PriceAPI.self;
  api_key : string
}.

Definition API : string := "https://pro-api.coinmarketcap.com".

Definition supported_currencies : M (list string) := ret ["usd"].

Definition init (symbols currency stocks : string) : M self :=
  b <- PriceAPI.init supported_currencies symbols currency stocks ;;
  key <- try_except KeyError (os_environ "CMC_API_KEY")
           (raise RuntimeError "CMC_API_KEY environment variable must be set.") ;;
  ret {| base := b; api_key := key |}.

Definition quotes_request (s : self) : request :=
  {| url := API ++ "/v1/cryptocurrency/quotes/latest";
     params := [("symbol", PriceAPI.symbols (base s))];
     headers := [("X-CMC_PRO_API_KEY", api_key s)] |}.

(** The body of the [try] inside the loop. *)
Definition entry_record (symbol : string) (data : pyval)
  : result price_record :=
  quote <- Py.getitem data "quote" ;;
  usd <- Py.getitem quote "USD" ;;
  p <- Py.getitem usd "price" ;;
  price <- Py.format_f true 2 p ;;
  quote' <- Py.getitem data "quote" ;;
  usd' <- Py.getitem quote' "USD" ;;
  c <- Py.getitem usd' "percent_change_24h" ;;
  change <- Py.format_f false 1 c ;;
  ret {| symbol := symbol; price := "$" ++ price;
         change_24h := change ++ "%" |}.

Definition loop_body (item : string * pyval) (price_data : list price_record)
  : M (list price_record) :=
  let '(symbol, data) := item in
  try_except KeyError
    (r <- lift (entry_record symbol data) ;; ret (price_data ++ [r])%list)
    (ret price_data).

(** [None] is the bare [return] of the decode-error path. *)
Definition fetch_price_data (s : self) : M (option (list price_record)) :=
  logger_info (LogText "`fetch_price_data` called.") ;;
  response <- requests_get (quotes_request s) ;;
  items <- try_except JSONDecodeError
             (lift (body <- json response ;;
                    data <- Py.get body "data" (PDict []) ;;
                    items <- Py.items data ;;
                    ret (Some items)))
             (logger_error (LogText ("JSON decode error: " ++ text response)) ;;
              ret None) ;;
  match items with
  | None => ret None
  | Some items =>
      price_data <- for_each items loop_body [] ;;
      ret (Some price_data)
  end.

End CoinMarketCap.

(** ** FinnHub quotes, shared by the CoinGecko and FinnHub adapters *)

Module Quote.

(** The body of the [try] of the stock loops. *)
Definition stock_record (stock : string) (response : pyval)
  : result price_record :=
  price_recent <- Py.getitem response "c" ;;
  price_open <- Py.getitem response "o" ;;
  q <- Py.truediv price_recent price_open ;;
  let change_24h :=
    Fmt.fixed false 1 (PriceAPI.percent_change q) ++ "%" in
  price <- Py.format_f true 2 price_recent ;;
  ret {| symbol := stock; price := "$" ++ price; change_24h := change_24h |}.

Definition quote_request (api : string) (stock key : string) : request :=
  {| url := api ++ "/quote";
     params := [("symbol", stock); ("token", key)];
     headers := [] |}.

Definition loop_body (api key : string) (stock : string)
    (price_data : list price_record) : M (list price_record) :=
  r <- requests_get (quote_request api stock key) ;;
  response <- lift (json r) ;;
  try_except KeyError
    (rec <- lift (stock_record stock response) ;;
     ret (price_data ++ [rec])%list)
    (ret price_data).

End Quote.

(** ** CoinGecko, blended with FinnHub *)

Module CoinGecko.

Record self := {
  base : PriceAPI.self;
  symbol_map : list (string * string);
  api_key : string
}.

Definition CG_API : string := "https://api.coingecko.com/api/v3".
Definition FH_API : string := "https://finnhub.io/api/v1/".

Definition supported_currencies : M (list string) := ret ["usd"].

Definition init (symbols currency stocks : string) : M self :=
  b <- PriceAPI.init supported_currencies symbols currency stocks ;;
  let symbol_map := [("bitcoin", "BTC"); ("ethereum", "ETH")] in
  key <- try_except KeyError (os_environ "FINNHUB_API_KEY")
           (raise RuntimeError
              "FINNHUB_API_KEY environment variable must be set.") ;;
  ret {| base := b; symbol_map := symbol_map; api_key := key |}.

Definition price_request (s : self) : request :=
  {| url := CG_API ++ "/simple/price";
     params := [("ids", Py.join_comma (map fst (symbol_map s)));
                ("vs_currencies", PriceAPI.currency (base s));
                ("include_24hr_change", "true")];
     headers := [] |}.

(** The body of the [try] of the coin loop. *)
Definition coin_strings (data : pyval) : result (string * string) :=
  p <- Py.getitem data "usd" ;;
  price <- Py.format_f true 2 p ;;
  c <- Py.getitem data "usd_24h_change" ;;
  change <- Py.format_f false 1 c ;;
  ret ("$" ++ price, change ++ "%").

Definition coin_body (s : self) (item : string * pyval)
    (price_data : list price_record) : M (list price_record) :=
  let '(coin_id, data) := item in
  strs <- try_except KeyError
            (pc <- lift (coin_strings data) ;; ret (Some pc))
            (ret None) ;;
  match strs with
  | None => ret price_data
  | Some (price, change_24h) =>
      sym <- lift (match assoc coin_id (symbol_map s) with
                   | Some x => Ok x
                   | None => builtin_error KeyError
                   end) ;;
      ret (price_data ++ [{| symbol := sym; price := price;
                              change_24h := change_24h |}])%list
  end.

Definition fetch_price_data (s : self) : M (option (list price_record)) :=
  logger_info (LogText "`fetch_price_data` called.") ;;
  logger_info (LogFetching (symbol_map s) (PriceAPI.stocks (base s))) ;;
  r <- requests_get (price_request s) ;;
  CG_response <- lift (json r) ;;
  items <- lift (Py.items CG_response) ;;
  price_data <- for_each items (coin_body s) [] ;;
  price_data <- for_each (Py.split_comma (PriceAPI.stocks (base s)))
                  (Quote.loop_body FH_API (api_key s)) price_data ;;
  logger_info (LogRecords price_data) ;;
  ret (Some price_data).

End CoinGecko.

(** ** FinnHub alone *)

Module FinnHub.

Record self := {
  base : PriceAPI.self;
  api_key : string
}.

Definition API : string := "https://finnhub.io/api/v1/".

Definition supported_currencies : M (list string) := ret ["usd"].

Definition init (symbols currency stocks : string) : M self :=
  b <- PriceAPI.init supported_currencies symbols currency stocks ;;
  key <- try_except KeyError (os_environ "FINNHUB_API_KEY")
           (raise RuntimeError
              "FINNHUB_API_KEY environment variable must be set.") ;;
  ret {| base := b; api_key := key |}.

Definition fetch_price_data (s : self) : M (option (list price_record)) :=
  logger_info (LogText "`fetch_price_data` called.") ;;
  price_data <- for_each (Py.split_comma (PriceAPI.stocks (base s)))
                  (Quote.loop_body API (api_key s)) [] ;;
  ret (Some price_data).

End FinnHub.

(** ** AlphaVantage *)

Module AlphaVantage.

Record self := {
  base : PriceAPI.self;
  api_key : string
}.

Definition API : string := "https://www.alphavantage.co".

Definition supported_currencies : M (list string) := ret ["usd"].

Definition init (symbols currency stocks : string) : M self :=
  b <- PriceAPI.init supported_currencies symbols currency stocks ;;
  key <- try_except KeyError (os_environ "ALPHA_VANTAGE_API_KEY")
           (raise RuntimeError
              "ALPHA_VANTAGE_API_KEY environment variable must be set.") ;;
  ret {| base := b; api_key := key |}.

(** [float(a)/float(b)] *)
Definition float_ratio (a b : pyval) : result spec_float :=
  x <- PyConv.float a ;;
  y <- PyConv.float b ;;
  if PyFloat.is_zero y then builtin_error ZeroDivisionError
  else ret (PyFloat.div x y).

(** The key of the opening bar, [f"{last_refreshed[:10]} 09:30:00"].
    It is computed after the series answered [last_refreshed] and
    was found to have a [get]: the series is a dict, and the stamp
    that indexed it a [str]. *)
Definition opening_key (last_refreshed : pyval) : result string :=
  day <- Py.slice_to last_refreshed 10 ;;
  match day with
  | PStr d => ret (d ++ " 09:30:00")
  | _ => builtin_error TypeError
  end.

Definition make_record (name : string) (price_recent price_open : pyval)
  : result price_record :=
  q <- float_ratio price_recent price_open ;;
  let change_24h :=
    Fmt.fixed false 1 (PriceAPI.percent_change q) ++ "%" in
  p <- PyConv.float price_recent ;;
  ret {| symbol := name; price := "$" ++ Fmt.fixed true 2 p;
         change_24h := change_24h |}.

(** The body of the [try] of the stock loop. *)
Definition stock_record (stock : string) (response : pyval)
  : result price_record :=
  meta <- Py.getitem response "Meta Data" ;;
  last_refreshed <- Py.getitem meta "3. Last Refreshed" ;;
  series <- Py.getitem response "Time Series (30min)" ;;
  bar <- Py.subscript series last_refreshed ;;
  price_recent <- Py.getitem bar "1. open" ;;
  series' <- Py.getitem response "Time Series (30min)" ;;
  series_get <- Py.bound_get series' ;;
  key <- opening_key last_refreshed ;;
  price_open <- Py.get (series_get key (PDict [])) "1. open" price_recent ;;
  make_record stock price_recent price_open.

Definition intraday_request (s : self) (stock : string) : request :=
  {| url := API ++ "/query?function=TIME_SERIES_INTRADAY";
     params := [("symbol", stock); ("interval", "30min");
                ("outputsize", "full"); ("apikey", api_key s)];
     headers := [] |}.

Definition stock_body (s : self) (stock : string)
    (price_data : list price_record) : M (list price_record) :=
  r <- requests_get (intraday_request s stock) ;;
  response <- lift (json r) ;;
  try_except KeyError
    (rec <- lift (stock_record stock response) ;;
     ret (price_data ++ [rec])%list)
    (ret price_data).

(** The body of the [try] of the currency loop. *)
Definition crypto_record (symbol : string)
    (response_current response_daily : pyval) : result price_record :=
  meta <- Py.getitem response_daily "Meta Data" ;;
  stamp <- Py.getitem meta "6. Last Refreshed" ;;
  last_refreshed <- Py.slice_to stamp 10 ;;
  rate <- Py.getitem response_current "Realtime Currency Exchange Rate" ;;
  price_recent <- Py.getitem rate "5. Exchange Rate" ;;
  series <- Py.getitem response_daily "Time Series (Digital Currency Daily)" ;;
  day <- Py.subscript series last_refreshed ;;
  price_open <- Py.getitem day "1a. open (USD)" ;;
  make_record symbol price_recent price_open.

Definition rate_request (s : self) (symbol : string) : request :=
  {| url := API ++ "/query?function=CURRENCY_EXCHANGE_RATE";
     params := [("from_currency", symbol); ("to_currency", "USD");
                ("apikey", api_key s)];
     headers := [] |}.

Definition daily_request (s : self) (symbol : string) : request :=
  {| url := API ++ "/query?function=DIGITAL_CURRENCY_DAILY";
     params := [("symbol", symbol); ("market", "USD");
                ("apikey", api_key s)];
     headers := [] |}.

Definition crypto_body (s : self) (symbol : string)
    (price_data : list price_record) : M (list price_record) :=
  r1 <- requests_get (rate_request s symbol) ;;
  response_current <- lift (json r1) ;;
  r2 <- requests_get (daily_request s symbol) ;;
  response_daily <- lift (json r2) ;;
  try_except KeyError
    (rec <- lift (crypto_record symbol response_current response_daily) ;;
     ret (price_data ++ [rec])%list)
    (ret price_data).

Definition fetch_price_data (s : self) : M (option (list price_record)) :=
  logger_info (LogText "`fetch_price_data` called.") ;;
  price_data <- for_each (Py.split_comma (PriceAPI.stocks (base s)))
                  (stock_body s) [] ;;
  price_data <- for_each (Py.split_comma (PriceAPI.symbols (base s)))
                  (crypto_body s) price_data ;;
  ret (Some price_data).

End AlphaVantage.

(** ** Instances, and dispatch on the class *)

Inductive instance :=
| CoinMarketCap_obj (s : CoinMarketCap.self)
| CoinGecko_obj (s : CoinGecko.self)
| FinnHub_obj (s : FinnHub.self)
| AlphaVantage_obj (s : AlphaVantage.self).

(** [cls(symbols, currency, stocks)] *)
Definition construct (cls : adapter) (symbols currency stocks : string)
  : M instance :=
  match cls with
  | CoinMarketCap_cls =>
      s <- CoinMarketCap.init symbols currency stocks ;; ret (CoinMarketCap_obj s)
  | CoinGecko_cls =>
      s <- CoinGecko.init symbols currency stocks ;; ret (CoinGecko_obj s)
  | FinnHub_cls =>
      s <- FinnHub.init symbols currency stocks ;; ret (FinnHub_obj s)
  | AlphaVantage_cls =>
      s <- AlphaVantage.init symbols currency stocks ;; ret (AlphaVantage_obj s)
  end.

Definition fetch_price_data (i : instance) : M (option (list price_record)) :=
  match i with
  | CoinMarketCap_obj s => CoinMarketCap.fetch_price_data s
  | CoinGecko_obj s => CoinGecko.fetch_price_data s
  | FinnHub_obj s => FinnHub.fetch_price_data s
  | AlphaVantage_obj s => AlphaVantage.fetch_price_data s
  end.

(** The environment variable an adapter takes its key from. *)
Definition credential (cls : adapter) : string :=
  match cls with
  | CoinMarketCap_cls => "CMC_API_KEY"
  | CoinGecko_cls | FinnHub_cls => "FINNHUB_API_KEY"
  | AlphaVantage_cls => "ALPHA_VANTAGE_API_KEY"
  end.


(** ** Specification-side definitions *)

(** *** Registry and credentials *)

(** The closed mapping from provider names to adapter types. *)
Definition registry : list (string * adapter) :=
  [("coinmarketcap", CoinMarketCap_cls);
   ("coingecko", CoinGecko_cls);
   ("alphavantage", AlphaVantage_cls)].

Definition instance_key (i : instance) : string :=
  match i with
  | CoinMarketCap_obj s => CoinMarketCap.api_key s
  | CoinGecko_obj s => CoinGecko.api_key s
  | FinnHub_obj s => FinnHub.api_key s
  | AlphaVantage_obj s => AlphaVantage.api_key s
  end.

Definition fixed_pair : list (string * string) :=
  [("bitcoin", "BTC"); ("ethereum", "ETH")].

Definition silent (p : event -> bool) {A} (m : M A) : Prop :=
  forall w, filter p (snd (m w)) = [].

(** *** JSON numbers and CoinMarketCap entries *)

(** A JSON number that converts to a float. *)
Definition is_number (v : pyval) : bool :=
  match v with
  | PFloat _ => true
  | PInt n => match PyFloat.of_int n with Some _ => true | None => false end
  | _ => false
  end.

(** [v == 0] for a JSON number. *)
Definition equals_zero (v : pyval) : bool :=
  match v with
  | PInt n => n =? 0
  | PFloat f => PyFloat.is_zero f
  | _ => false
  end.

(** The float a JSON number is formatted as. *)
Definition number_value (v : pyval) : spec_float :=
  match v with
  | PFloat f => f
  | PInt n => match PyFloat.of_int n with Some f => f | None => S754_nan end
  | _ => S754_nan
  end.

(** A JSON number whose float is finite. *)
Definition is_finite_number (v : pyval) : bool :=
  is_number v && PyFloat.is_finite (number_value v).

Definition first_ticker (stocks : string) : string :=
  hd EmptyString (Py.split_comma stocks).

(** [data] has [quote.USD.price = p] and
    [quote.USD.percent_change_24h = c]. *)
Definition full_quote (data p c : pyval) : Prop :=
  exists quote usd,
    Py.getitem data "quote" = Ok quote
    /\ Py.getitem quote "USD" = Ok usd
    /\ Py.getitem usd "price" = Ok p
    /\ Py.getitem usd "percent_change_24h" = Ok c.

(** A CoinMarketCap entry either has full quote data, both fields
    being numbers, or is incomplete: a key on the way to
    [quote.USD.price] or [quote.USD.percent_change_24h] is missing
    from its dict. *)
Inductive entry_kind :=
| Complete (p c : pyval)
| Incomplete.

Definition classify (data : pyval) : option entry_kind :=
  match data with
  | PDict kv =>
      match assoc "quote" kv with
      | Some (PDict q) =>
          match assoc "USD" q with
          | Some (PDict u) =>
              match assoc "price" u, assoc "percent_change_24h" u with
              | Some p, Some c =>
                  if (is_number p && is_number c)%bool
                  then Some (Complete p c) else None
              | Some p, None => if is_number p then Some Incomplete else None
              | None, _ => Some Incomplete
              end
          | Some _ => None
          | None => Some Incomplete
          end
      | Some _ => None
      | None => Some Incomplete
      end
  | _ => None
  end.

Definition normalised (sym : string) (p c : pyval) : price_record :=
  {| symbol := sym;
     price := "$" ++ Fmt.fixed true 2 (number_value p);
     change_24h := Fmt.fixed false 1 (number_value c) ++ "%" |}.

(** One record per complete entry, in the order of the entries. *)
Fixpoint complete_records (items : list (string * pyval)) : list price_record :=
  match items with
  | [] => []
  | (sym, data) :: rest =>
      match classify data with
      | Some (Complete p c) => normalised sym p c :: complete_records rest
      | _ => complete_records rest
      end
  end.

(** *** The shape and the value of a formatted text *)

Definition is_digit : ascii -> bool := FloatParse.is_digit.

(** Digits in groups of three separated by commas, the leading group
    having one to three digits; read from the right. *)
Fixpoint grouped_rev (l : list ascii) : bool :=
  match l with
  | [] => false
  | [a] => is_digit a
  | [a; b] => is_digit a && is_digit b
  | [a; b; c] => is_digit a && is_digit b && is_digit c
  | a :: b :: c :: sep :: rest =>
      is_digit a && is_digit b && is_digit c && Ascii.eqb sep ","
      && grouped_rev rest
  end.

(** [p] holds of the text, or of the text after a leading minus. *)
Definition signed (p : list ascii -> bool) (l : list ascii) : bool :=
  p l || match l with
         | c :: r => Ascii.eqb c "-" && p r
         | [] => false
         end.

(** Grouped digits, a point, two digits. *)
Definition grouped_2dp (l : list ascii) : bool :=
  match rev l with
  | d2 :: d1 :: point :: int_rev =>
      is_digit d1 && is_digit d2 && Ascii.eqb point "." && grouped_rev int_rev
  | _ => false
  end.

(** ["$"], then a signed, grouped number with two decimals. *)
Definition is_price_text (s : string) : bool :=
  match list_ascii_of_string s with
  | c :: body => Ascii.eqb c "$" && signed grouped_2dp body
  | [] => false
  end.

(** Digits, a point, one digit, ["%"]. *)
Definition plain_1dp_percent (l : list ascii) : bool :=
  match rev l with
  | pct :: d :: point :: int_rev =>
      Ascii.eqb pct "%" && is_digit d && Ascii.eqb point "."
      && negb (Nat.eqb (List.length int_rev) 0) && forallb is_digit int_rev
  | _ => false
  end.

Definition is_percent_text (s : string) : bool :=
  signed plain_1dp_percent (list_ascii_of_string s).

(** The integer the digits of a text spell, everything else dropped:
    for a text with [d] decimals, its magnitude in units of [10^-d]. *)
Definition digits_from (acc : Z) (l : list ascii) : Z :=
  fold_left (fun a c => 10 * a + FloatParse.digit_val c) l acc.

Definition text_units (s : string) : Z :=
  digits_from 0 (filter is_digit (list_ascii_of_string s)).

Definition has_minus (s : string) : bool :=
  existsb (Ascii.eqb "-") (list_ascii_of_string s).

Definition sign_bit (f : spec_float) : bool :=
  match f with
  | S754_zero s | S754_infinity s | S754_finite s _ _ => s
  | S754_nan => false
  end.

(** [n] is an integer nearest to the magnitude of [f] times [10^d]. *)
Definition nearest_units (d : nat) (f : spec_float) (n : Z) : Prop :=
  match f with
  | S754_zero _ => n = 0
  | S754_finite _ m (Zneg k) =>
      Z.abs (2 * (Zpos m * 10 ^ Z.of_nat d - n * 2 ^ Zpos k)) <= 2 ^ Zpos k
  | S754_finite _ m e => n = Zpos m * 2 ^ e * 10 ^ Z.of_nat d
  | _ => False
  end.

(** The record shows [p] as a dollar price with grouped thousands and
    two decimals and [c] as a percentage with one decimal, each text
    spelling an integer nearest to the magnitude of the number and
    bearing a minus exactly for a negative one. *)
Definition well_formatted (r : price_record) (p c : pyval) : Prop :=
  is_price_text (price r) = true
  /\ is_percent_text (change_24h r) = true
  /\ nearest_units 2 (number_value p) (text_units (price r))
  /\ nearest_units 1 (number_value c) (text_units (change_24h r))
  /\ has_minus (price r) = sign_bit (number_value p)
  /\ has_minus (change_24h r) = sign_bit (number_value c).

(** *** AlphaVantage intraday series *)

Definition one : spec_float := S754_finite false 4503599627370496 (-52).

(** The key of the 9:30 bar of the day of [stamp]. *)
Definition opening_bar_key (stamp : string) : string :=
  substring 0 10 stamp ++ " 09:30:00".

(** ** Scenarios *)

Definition bare_world : world :=
  {| environ := fun _ => None;
     network := fun _ => {| text := ""; decoded := None |} |}.

Definition keyed_world : world :=
  {| environ := fun n =>
       if String.eqb n "ALPHA_VANTAGE_API_KEY" then Some "demo" else None;
     network := fun _ => {| text := ""; decoded := None |} |}.

(** [{"bitcoin": {"usd": 50000.1234, "usd_24h_change": 2.345}}] *)
Definition simple_price_body : pyval :=
  PDict [("bitcoin",
          PDict [("usd", PFloat (PyFloat.of_decimal false 500001234 (-4)));
                 ("usd_24h_change", PFloat (PyFloat.of_decimal false 2345 (-3)))])].

(** [{"c": 110.0, "o": 100.0}] *)
Definition aapl_quote_body : pyval :=
  PDict [("c", PFloat (PyFloat.of_decimal false 1100 (-1)));
         ("o", PFloat (PyFloat.of_decimal false 1000 (-1)))].

Definition simple_price_request (currency : string) : request :=
  {| url := "https://api.coingecko.com/api/v3/simple/price";
     params := [("ids", "bitcoin,ethereum"); ("vs_currencies", currency);
                ("include_24hr_change", "true")];
     headers := [] |}.

Definition finnhub_quote_request (stock key : string) : request :=
  {| url := "https://finnhub.io/api/v1//quote";
     params := [("symbol", stock); ("token", key)];
     headers := [] |}.

Definition scenario_world : world :=
  {| environ := fun n =>
       if String.eqb n "FINNHUB_API_KEY" then Some "token" else None;
     network := fun r =>
       if String.eqb (url r) "https://api.coingecko.com/api/v3/simple/price"
       then {| text := ""; decoded := Some simple_price_body |}
       else {| text := ""; decoded := Some aapl_quote_body |} |}.

(** [{"c": 110.0, "o": 0.0}] for every quote, [{}] from CoinGecko. *)
Definition halted_world : world :=
  {| environ := fun _ => Some "token";
     network := fun r =>
       if String.eqb (url r) "https://api.coingecko.com/api/v3/simple/price"
       then {| text := "{}"; decoded := Some (PDict []) |}
       else {| text := "";
               decoded := Some (PDict [("c", PFloat (PyFloat.of_decimal false 1100 (-1)));
                                       ("o", PFloat (S754_zero false))]) |} |}.

(** Every key is set and every provider answers with an HTML page. *)
Definition outage_world : world :=
  {| environ := fun _ => Some "token";
     network := fun _ => {| text := "<html>502 Bad Gateway</html>";
                            decoded := None |} |}.

Definition alpha_self : AlphaVantage.self :=
  {| AlphaVantage.base := {| PriceAPI.symbols := "BTC";
                             PriceAPI.stocks := "IBM";
                             PriceAPI.currency := "usd" |};
     AlphaVantage.api_key := "demo" |}.

(** An intraday response whose last bar opens at [open] and which has
    no 9:30 bar. *)
Definition intraday_body (open : string) : pyval :=
  PDict [("Meta Data",
           PDict [("2. Symbol", PStr "IBM");
                  ("3. Last Refreshed", PStr "2024-01-02 16:00:00")]);
         ("Time Series (30min)",
           PDict [("2024-01-02 16:00:00",
                    PDict [("1. open", PStr open); ("4. close", PStr open)])])].

Definition intraday_world (open : string) : world :=
  {| environ := fun _ => Some "demo";
     network := fun _ => {| text := ""; decoded := Some (intraday_body open) |} |}.

Definition usd_quote (fields : list (string * pyval)) : pyval :=
  PDict [("id", PInt 1); ("quote", PDict [("USD", PDict fields)])].

(** [{"price": 43250.5, "percent_change_24h": -1.25}] *)
Definition btc_fields : list (string * pyval) :=
  [("price", PFloat (PyFloat.of_decimal false 432505 (-1)));
   ("percent_change_24h", PFloat (PyFloat.of_decimal true 125 (-2)))].

(** [{"price": 2301, "percent_change_24h": 0.75}] *)
Definition eth_fields : list (string * pyval) :=
  [("price", PInt 2301);
   ("percent_change_24h", PFloat (PyFloat.of_decimal false 75 (-2)))].

Definition cmc_self : CoinMarketCap.self :=
  {| CoinMarketCap.base := {| PriceAPI.symbols := "BTC,ETH";
                              PriceAPI.stocks := "";
                              PriceAPI.currency := "usd" |};
     CoinMarketCap.api_key := "token" |}.

Definition cmc_world (data : list (string * pyval)) : world :=
  {| environ := fun _ => Some "token";
     network := fun _ =>
       {| text := "";
          decoded := Some (PDict [("status", PDict []); ("data", PDict data)]) |} |}.

(** ** Definitions for the further properties *)

(** [l1] is [l2] with some elements left out, the order kept. *)
Inductive subseq {A : Type} : list A -> list A -> Prop :=
| subseq_nil : subseq [] []
| subseq_skip : forall x l1 l2, subseq l1 l2 -> subseq l1 (x :: l2)
| subseq_keep : forall x l1 l2, subseq l1 l2 -> subseq (x :: l1) (x :: l2).

Definition instance_base (i : instance) : PriceAPI.self :=
  match i with
  | CoinMarketCap_obj s => CoinMarketCap.base s
  | CoinGecko_obj s => CoinGecko.base s
  | FinnHub_obj s => FinnHub.base s
  | AlphaVantage_obj s => AlphaVantage.base s
  end.

Definition instance_class (i : instance) : adapter :=
  match i with
  | CoinMarketCap_obj _ => CoinMarketCap_cls
  | CoinGecko_obj _ => CoinGecko_cls
  | FinnHub_obj _ => FinnHub_cls
  | AlphaVantage_obj _ => AlphaVantage_cls
  end.

(** The requests sent in a trace. *)
Definition requests_of (t : list event) : list request :=
  flat_map (fun e => match e with HttpGet r => [r] | _ => [] end) t.

(** The number of commas of a text. *)
Fixpoint count_commas (s : string) : nat :=
  match s with
  | EmptyString => O
  | String c rest =>
      if Ascii.eqb c ","%char then S (count_commas rest) else count_commas rest
  end.

(** The class of the exception [format(v, ".Nf")] raises on a value
    that is not a number it can print. *)
Definition format_error (v : pyval) : option exn_class :=
  match v with
  | PNone | PList _ | PDict _ => Some TypeError
  | PStr _ => Some ValueError
  | PInt n => match PyFloat.of_int n with
              | Some _ => None
              | None => Some OverflowError
              end
  | _ => None
  end.

(** A JSON object. *)
Definition is_object (v : pyval) : bool :=
  match v with PDict _ => true | _ => false end.

Definition status_only_world : world :=
  {| environ := fun _ => Some "token";
     network := fun _ =>
       {| text := "";
          decoded := Some (PDict [("status",
                                   PDict [("error_code", PInt 1008);
                                          ("error_message", PStr "limit")])]) |} |}.

Definition list_world : world :=
  {| environ := fun _ => Some "token";
     network := fun _ => {| text := "[]"; decoded := Some (PList []) |} |}.

Definition null_data_world : world :=
  {| environ := fun _ => Some "token";
     network := fun _ =>
       {| text := ""; decoded := Some (PDict [("data", PNone)]) |} |}.

(** [{"price": null, "percent_change_24h": 1.5}] after a full entry. *)
Definition null_price_items : list (string * pyval) :=
  [("BTC", usd_quote btc_fields);
   ("XYZ", usd_quote [("price", PNone);
                      ("percent_change_24h",
                       PFloat (PyFloat.of_decimal false 15 (-1)))]);
   ("ETH", usd_quote eth_fields)].

Definition finnhub_self (stocks : string) : FinnHub.self :=
  {| FinnHub.base := {| PriceAPI.symbols := "";
                        PriceAPI.stocks := stocks;
                        PriceAPI.currency := "usd" |};
     FinnHub.api_key := "token" |}.

(** FinnHub knows AAPL and answers [{"error": ..}] for anything else. *)
Definition aapl_only_world : world :=
  {| environ := fun _ => Some "token";
     network := fun r =>
       if String.eqb (Py.join_comma (map snd (firstn 1 (params r)))) "AAPL"
       then {| text := ""; decoded := Some aapl_quote_body |}
       else {| text := "";
               decoded := Some (PDict [("error", PStr "Symbol not supported")]) |} |}.

Definition error_world : world :=
  {| environ := fun _ => Some "token";
     network := fun _ =>
       {| text := "";
          decoded := Some (PDict [("error", PStr "API limit reached.")]) |} |}.

(** [{"c": 187.5, "o": 187.5}] *)
Definition flat_quote_world : world :=
  {| environ := fun _ => Some "token";
     network := fun _ =>
       {| text := "";
          decoded := Some (PDict [("c", PFloat (PyFloat.of_decimal false 1875 (-1)));
                                  ("o", PFloat (PyFloat.of_decimal false 1875 (-1)))]) |} |}.

Definition coingecko_self (stocks : string) : CoinGecko.self :=
  {| CoinGecko.base := {| PriceAPI.symbols := "";
                          PriceAPI.stocks := stocks;
                          PriceAPI.currency := "usd" |};
     CoinGecko.symbol_map := [("bitcoin", "BTC"); ("ethereum", "ETH")];
     CoinGecko.api_key := "token" |}.

(** [{"usd": 0.084, "usd_24h_change": 3.1}] *)
Definition doge_data : pyval :=
  PDict [("usd", PFloat (PyFloat.of_decimal false 84 (-3)));
         ("usd_24h_change", PFloat (PyFloat.of_decimal false 31 (-1)))].

(** CoinGecko answers with a coin that was not asked for. *)
Definition stray_coin_world : world :=
  {| environ := fun _ => Some "token";
     network := fun r =>
       if String.eqb (url r) "https://api.coingecko.com/api/v3/simple/price"
       then {| text := "";
               decoded := Some (PDict [("dogecoin", doge_data)]) |}
       else {| text := ""; decoded := Some aapl_quote_body |} |}.

(** AlphaVantage answers every request with its rate-limit note. *)
Definition rate_limited_world : world :=
  {| environ := fun _ => Some "demo";
     network := fun _ =>
       {| text := "";
          decoded := Some (PDict [("Note", PStr "API call frequency exceeded")]) |} |}.

Definition alpha_pair_self : AlphaVantage.self :=
  {| AlphaVantage.base := {| PriceAPI.symbols := "BTC,ETH";
                             PriceAPI.stocks := "IBM";
                             PriceAPI.currency := "usd" |};
     AlphaVantage.api_key := "demo" |}.

(** An intraday response whose last bar is the 9:30 bar. *)
Definition opening_body : pyval :=
  PDict [("Meta Data",
           PDict [("3. Last Refreshed", PStr "2024-01-02 09:30:00")]);
         ("Time Series (30min)",
           PDict [("2024-01-02 09:30:00",
                    PDict [("1. open", PStr "161.5000")]);
                  ("2024-01-01 16:00:00",
                    PDict [("1. open", PStr "158.0000")])])].

Definition opening_world : world :=
  {| environ := fun _ => Some "demo";
     network := fun _ => {| text := ""; decoded := Some opening_body |} |}.

Definition is_error_log (e : event) : bool :=
  match e with Log ERROR _ => true | _ => false end.

(** A quote whose two prices are floats, the open not zero. *)
Definition float_quote (v : pyval) : bool :=
  match v with
  | PDict kv =>
      match assoc "c" kv, assoc "o" kv with
      | Some (PFloat _), Some (PFloat o) => negb (PyFloat.is_zero o)
      | _, _ => false
      end
  | _ => false
  end.

(** * Properties *)

(** ** Running computations *)

Lemma run_bind {A B} (c : M A) (k : A -> M B) (w : world) :
  (x <- c ;; k x) w =
  match c w with
  | (Ok a, t1) => let '(r, t2) := k a w in (r, (t1 ++ t2)%list)
  | (Raise e, t1) => (Raise e, t1)
  end.
Proof. reflexivity. Qed.

Lemma run_bind_ok {A B} (c : M A) (k : A -> M B) w a t :
  c w = (Ok a, t) ->
  (x <- c ;; k x) w = (fst (k a w), (t ++ snd (k a w))%list).
Proof. intros H. rewrite run_bind, H. now destruct (k a w). Qed.

Lemma run_bind_raise {A B} (c : M A) (k : A -> M B) w e t :
  c w = (Raise e, t) -> (x <- c ;; k x) w = (Raise e, t).
Proof. intros H. now rewrite run_bind, H. Qed.

Lemma validate_usd (currency : string) (w : world) :
  PriceAPI.validate_currency (ret ["usd"]) currency w =
  if String.eqb currency "usd" then (Ok tt, [])
  else (Raise (Exn ValueError
                 (Some ("CURRENCY=" ++ currency
                          ++ " is not supported. Options are: ['usd']."))), []).
Proof.
  unfold PriceAPI.validate_currency. cbn.
  destruct (String.eqb currency "usd"); reflexivity.
Qed.

Lemma init_base_usd symbols currency stocks w :
  PriceAPI.init (ret ["usd"]) symbols currency stocks w =
  if String.eqb currency "usd"
  then (Ok {| PriceAPI.symbols := symbols; PriceAPI.stocks := stocks;
              PriceAPI.currency := currency |}, [])
  else (Raise (Exn ValueError
                 (Some ("CURRENCY=" ++ currency
                          ++ " is not supported. Options are: ['usd']."))), []).
Proof.
  unfold PriceAPI.init. rewrite run_bind, validate_usd.
  destruct (String.eqb currency "usd"); reflexivity.
Qed.

(** Reading the key: one environment read, and the [RuntimeError] of
    the adapter when the variable is unset. *)
Lemma read_key (name msg : string) (w : world) :
  try_except KeyError (os_environ name) (raise RuntimeError msg) w =
  (match environ w name with
   | Some k => Ok k
   | None => Raise (Exn RuntimeError (Some msg))
   end, [EnvRead name]).
Proof.
  unfold try_except, os_environ, raise.
  destruct (environ w name); reflexivity.
Qed.

(** ** C3 *)

(** C3: a provider name outside the closed registry makes
    [get_api_cls] fail with the configuration error (a [RuntimeError]
    naming the provider); a registered name yields the adapter type
    bound to it.  Either way the trace is empty: no request is sent
    and nothing else is touched. *)
Theorem get_api_cls_closed_registry (api_name : string) (w : world) :
  (forall cls, In (api_name, cls) registry ->
     get_api_cls api_name w = (Ok cls, []))
  /\ (~ In api_name (map fst registry) ->
      get_api_cls api_name w =
      (Raise (Exn ConfigurationError
                (Some (dquote ++ api_name ++ dquote
                         ++ " api is not implemented."))), [])).
Proof.
  split.
  - intros cls H. cbn in H.
    destruct H as [H | [H | [H | []]]]; inversion H; subst; reflexivity.
  - intros H. unfold get_api_cls. cbn.
    destruct (String.eqb_spec api_name "coinmarketcap") as [-> | _];
      [exfalso; apply H; cbn; tauto |].
    destruct (String.eqb_spec api_name "coingecko") as [-> | _];
      [exfalso; apply H; cbn; tauto |].
    destruct (String.eqb_spec api_name "alphavantage") as [-> | _];
      [exfalso; apply H; cbn; tauto |].
    reflexivity.
Qed.

Lemma get_api_cls_closed_registry_witness :
  get_api_cls "coingecko" bare_world = (Ok CoinGecko_cls, [])
  /\ get_api_cls "finnhub" bare_world =
     (Raise (Exn ConfigurationError
               (Some (dquote ++ "finnhub" ++ dquote
                        ++ " api is not implemented."))), []).
Proof.
  split.
  - apply (proj1 (get_api_cls_closed_registry "coingecko" bare_world)).
    cbn. tauto.
  - apply (proj2 (get_api_cls_closed_registry "finnhub" bare_world)).
    cbn. intros [H | [H | [H | []]]]; discriminate H.
Defined.

(** ** C4 *)

(** C4: whatever the adapter, a currency other than ["usd"] (the only
    supported one) makes construction fail with the validation error
    (a [ValueError]) whose message lists the allowed set; the trace is
    empty, so neither a request nor an environment read precedes it. *)
Theorem construct_rejects_currency (cls : adapter)
    (symbols currency stocks : string) (w : world) :
  currency <> "usd" ->
  construct cls symbols currency stocks w =
  (Raise (Exn ValidationError
            (Some ("CURRENCY=" ++ currency
                     ++ " is not supported. Options are: ['usd']."))), []).
Proof.
  intros H. apply String.eqb_neq in H.
  destruct cls; unfold construct;
    [ unfold CoinMarketCap.init, CoinMarketCap.supported_currencies
    | unfold CoinGecko.init, CoinGecko.supported_currencies
    | unfold FinnHub.init, FinnHub.supported_currencies
    | unfold AlphaVantage.init, AlphaVantage.supported_currencies ];
    rewrite run_bind, run_bind, init_base_usd, H; reflexivity.
Qed.

Lemma construct_rejects_currency_witness :
  construct CoinGecko_cls "BTC,ETH" "USD" "AAPL" bare_world =
  (Raise (Exn ValidationError
            (Some "CURRENCY=USD is not supported. Options are: ['usd'].")), []).
Proof.
  apply (construct_rejects_currency CoinGecko_cls "BTC,ETH" "USD" "AAPL").
  discriminate.
Defined.

(** ** Events a computation never causes *)

Section Silent.
Variable p : event -> bool.

Lemma silent_ret {A} (a : A) : silent p (ret a).
Proof. intros w. reflexivity. Qed.

Lemma silent_lift {A} (r : result A) : silent p (lift r).
Proof. intros w. reflexivity. Qed.

Lemma silent_raise {A} c msg : silent p (@raise A c msg).
Proof. intros w. reflexivity. Qed.

Lemma silent_bind {A B} (c : M A) (k : A -> M B) :
  silent p c -> (forall a, silent p (k a)) -> silent p (x <- c ;; k x).
Proof.
  intros Hc Hk w. rewrite run_bind. specialize (Hc w).
  destruct (c w) as [[a | e] t1]; cbn in *; [| exact Hc].
  specialize (Hk a w). destruct (k a w) as [r t2]. cbn in *.
  now rewrite filter_app, Hc, Hk.
Qed.

Lemma silent_try {A} cls (body handler : M A) :
  silent p body -> silent p handler -> silent p (try_except cls body handler).
Proof.
  intros Hb Hh w. unfold try_except. specialize (Hb w).
  destruct (body w) as [[a | e] t1]; cbn in *; [exact Hb |].
  destruct (exn_class_eqb (exn_cls e) cls); [| exact Hb].
  specialize (Hh w). destruct (handler w) as [r t2]. cbn in *.
  now rewrite filter_app, Hb, Hh.
Qed.

Lemma silent_for_each {A S} (xs : list A) (body : A -> S -> M S) acc :
  (forall x s, silent p (body x s)) -> silent p (for_each xs body acc).
Proof.
  intros Hb. revert acc.
  induction xs as [| x xs IH]; intros acc; cbn [for_each].
  - apply silent_ret.
  - apply silent_bind; [apply Hb | intros a; apply IH].
Qed.

Lemma silent_log_info m : silent p (logger_info m) <-> p (Log INFO m) = false.
Proof.
  unfold silent, logger_info. cbn. split.
  - intros H. specialize (H bare_world). now destruct (p (Log INFO m)).
  - intros -> _. reflexivity.
Qed.

Lemma silent_log_error m : p (Log ERROR m) = false -> silent p (logger_error m).
Proof. intros H w. cbn. now rewrite H. Qed.

Lemma silent_get r : p (HttpGet r) = false -> silent p (requests_get r).
Proof. intros H w. cbn. now rewrite H. Qed.

Lemma silent_environ name : p (EnvRead name) = false -> silent p (os_environ name).
Proof. intros H w. cbn. now rewrite H. Qed.
End Silent.

Ltac silent_step :=
  first
    [ apply silent_ret | apply silent_lift | apply silent_raise
    | apply silent_log_info; reflexivity
    | apply silent_log_error; reflexivity
    | apply silent_get; reflexivity
    | apply silent_environ; reflexivity
    | apply silent_for_each; intros
    | apply silent_try
    | apply silent_bind; [| intros]
    | match goal with
      | |- silent _ (match ?x with _ => _ end) => destruct x
      | |- silent _ (let '(_, _) := ?x in _) => destruct x
      end ].

Lemma quote_loop_reads_no_env api key stock acc :
  silent is_env_read (Quote.loop_body api key stock acc).
Proof. unfold Quote.loop_body. repeat silent_step. Qed.

(** A fetch leaves the environment alone. *)
Lemma fetch_reads_no_env (i : instance) :
  silent is_env_read (fetch_price_data i).
Proof.
  destruct i as [s | s | s | s]; cbn [fetch_price_data].
  - unfold CoinMarketCap.fetch_price_data, CoinMarketCap.loop_body.
    repeat silent_step.
  - unfold CoinGecko.fetch_price_data, CoinGecko.coin_body.
    repeat silent_step; apply quote_loop_reads_no_env.
  - unfold FinnHub.fetch_price_data.
    repeat silent_step; apply quote_loop_reads_no_env.
  - unfold AlphaVantage.fetch_price_data, AlphaVantage.stock_body,
      AlphaVantage.crypto_body.
    repeat silent_step.
Qed.

(** X19: construction sends no request, whatever its arguments and
    whatever the environment holds, whether it succeeds or fails. *)
Lemma construct_sends_nothing (cls : adapter) (symbols currency stocks : string) :
  silent is_http (construct cls symbols currency stocks).
Proof.
  destruct cls; unfold construct;
    [ unfold CoinMarketCap.init, CoinMarketCap.supported_currencies
    | unfold CoinGecko.init, CoinGecko.supported_currencies
    | unfold FinnHub.init, FinnHub.supported_currencies
    | unfold AlphaVantage.init, AlphaVantage.supported_currencies ];
    unfold PriceAPI.init, PriceAPI.validate_currency;
    repeat silent_step.
Qed.

(** ** C9 *)

Lemma construct_usd (cls : adapter) (symbols stocks : string) (w : world) :
  exists mk : string -> instance,
    (forall k, instance_key (mk k) = k) /\
    construct cls symbols "usd" stocks w =
    (match environ w (credential cls) with
     | Some k => Ok (mk k)
     | None => Raise (Exn RuntimeError
                        (Some (credential cls
                                 ++ " environment variable must be set.")))
     end, [EnvRead (credential cls)]).
Proof.
  set (b := {| PriceAPI.symbols := symbols; PriceAPI.stocks := stocks;
               PriceAPI.currency := "usd" |}).
  destruct cls; unfold construct.
  - exists (fun k => CoinMarketCap_obj
                       {| CoinMarketCap.base := b; CoinMarketCap.api_key := k |}).
    split; [reflexivity |].
    unfold CoinMarketCap.init, CoinMarketCap.supported_currencies.
    rewrite run_bind, run_bind, init_base_usd. cbn [String.eqb Ascii.eqb Bool.eqb].
    rewrite run_bind, read_key. cbn.
    destruct (environ w "CMC_API_KEY"); reflexivity.
  - exists (fun k => CoinGecko_obj
                       {| CoinGecko.base := b;
                          CoinGecko.symbol_map :=
                            [("bitcoin", "BTC"); ("ethereum", "ETH")];
                          CoinGecko.api_key := k |}).
    split; [reflexivity |].
    unfold CoinGecko.init, CoinGecko.supported_currencies.
    rewrite run_bind, run_bind, init_base_usd. cbn [String.eqb Ascii.eqb Bool.eqb].
    rewrite run_bind, read_key. cbn.
    destruct (environ w "FINNHUB_API_KEY"); reflexivity.
  - exists (fun k => FinnHub_obj
                       {| FinnHub.base := b; FinnHub.api_key := k |}).
    split; [reflexivity |].
    unfold FinnHub.init, FinnHub.supported_currencies.
    rewrite run_bind, run_bind, init_base_usd. cbn [String.eqb Ascii.eqb Bool.eqb].
    rewrite run_bind, read_key. cbn.
    destruct (environ w "FINNHUB_API_KEY"); reflexivity.
  - exists (fun k => AlphaVantage_obj
                       {| AlphaVantage.base := b; AlphaVantage.api_key := k |}).
    split; [reflexivity |].
    unfold AlphaVantage.init, AlphaVantage.supported_currencies.
    rewrite run_bind, run_bind, init_base_usd. cbn [String.eqb Ascii.eqb Bool.eqb].
    rewrite run_bind, read_key. cbn.
    destruct (environ w "ALPHA_VANTAGE_API_KEY"); reflexivity.
Qed.

(** C9, as the code has it: the currency is validated first, so the
    statement is about constructions with the supported currency.
    There, an adapter whose variable is unset fails with the
    configuration error (a [RuntimeError] naming the variable) after a
    single environment read and no request; when the variable is set
    the instance holds that value, construction made exactly that one
    read, and a later fetch makes none. *)
Theorem credential_read_once_at_construction (cls : adapter)
    (symbols stocks : string) (w : world) :
  (environ w (credential cls) = None ->
   construct cls symbols "usd" stocks w =
   (Raise (Exn ConfigurationError
             (Some (credential cls ++ " environment variable must be set."))),
    [EnvRead (credential cls)]))
  /\ (forall key, environ w (credential cls) = Some key ->
      exists i,
        construct cls symbols "usd" stocks w = (Ok i, [EnvRead (credential cls)])
        /\ instance_key i = key
        /\ forall w', env_reads (snd (fetch_price_data i w')) = []).
Proof.
  destruct (construct_usd cls symbols stocks w) as (mk & Hk & E).
  split.
  - intros H. now rewrite E, H.
  - intros key H. exists (mk key). rewrite E, H.
    repeat split; [apply Hk | apply fetch_reads_no_env].
Qed.

Lemma credential_read_once_at_construction_witness :
  construct CoinMarketCap_cls "BTC" "usd" "AAPL" bare_world =
  (Raise (Exn ConfigurationError
            (Some "CMC_API_KEY environment variable must be set.")),
   [EnvRead "CMC_API_KEY"])
  /\ exists i,
       construct AlphaVantage_cls "BTC" "usd" "AAPL" keyed_world =
       (Ok i, [EnvRead "ALPHA_VANTAGE_API_KEY"])
       /\ instance_key i = "demo"
       /\ forall w', env_reads (snd (fetch_price_data i w')) = [].
Proof.
  split.
  - apply (proj1 (credential_read_once_at_construction
                    CoinMarketCap_cls "BTC" "AAPL" bare_world)).
    reflexivity.
  - apply (proj2 (credential_read_once_at_construction
                    AlphaVantage_cls "BTC" "AAPL" keyed_world) "demo").
    reflexivity.
Defined.

(** C9 as stated fails: with an unsupported currency and the variable
    unset, construction raises the validation error, not the
    configuration error. *)
Lemma credential_check_follows_currency_check :
  environ bare_world (credential CoinMarketCap_cls) = None
  /\ construct CoinMarketCap_cls "BTC" "eur" "AAPL" bare_world =
     (Raise (Exn ValidationError
               (Some "CURRENCY=eur is not supported. Options are: ['usd'].")),
      [])
  /\ ~ (exists msg t,
          construct CoinMarketCap_cls "BTC" "eur" "AAPL" bare_world =
          (Raise (Exn ConfigurationError msg), t)).
Proof.
  split; [reflexivity |]. split; [reflexivity |].
  intros (msg & t & H). vm_compute in H. discriminate H.
Qed.

(** ** Running the adapters *)

Lemma run_coingecko_init symbols currency stocks w :
  CoinGecko.init symbols currency stocks w =
  if String.eqb currency "usd" then
    (match environ w "FINNHUB_API_KEY" with
     | Some k =>
         Ok {| CoinGecko.base :=
                 {| PriceAPI.symbols := symbols;
                    PriceAPI.stocks := stocks;
                    PriceAPI.currency := currency |};
               CoinGecko.symbol_map := [("bitcoin", "BTC"); ("ethereum", "ETH")];
               CoinGecko.api_key := k |}
     | None => Raise (Exn RuntimeError
                        (Some "FINNHUB_API_KEY environment variable must be set."))
     end, [EnvRead "FINNHUB_API_KEY"])
  else (Raise (Exn ValueError
                 (Some ("CURRENCY=" ++ currency
                          ++ " is not supported. Options are: ['usd']."))), []).
Proof.
  unfold CoinGecko.init, CoinGecko.supported_currencies.
  rewrite run_bind, init_base_usd.
  destruct (String.eqb currency "usd"); [| reflexivity].
  rewrite run_bind, read_key.
  destruct (environ w "FINNHUB_API_KEY"); reflexivity.
Qed.

(** One turn of a stock loop: the request, then the record, the skip
    on a missing key, or the exception that escapes. *)
Lemma run_quote_loop_body api key stock pd w :
  Quote.loop_body api key stock pd w =
  (match json (network w (Quote.quote_request api stock key)) with
   | Ok response =>
       match Quote.stock_record stock response with
       | Ok r => Ok (pd ++ [r])%list
       | Raise e => if exn_class_eqb (exn_cls e) KeyError then Ok pd else Raise e
       end
   | Raise e => Raise e
   end, [HttpGet (Quote.quote_request api stock key)]).
Proof.
  unfold Quote.loop_body. rewrite run_bind. unfold requests_get.
  rewrite run_bind. unfold lift, try_except.
  destruct (json (network w (Quote.quote_request api stock key))) as [v | e];
    [| reflexivity].
  cbv beta iota. rewrite run_bind.
  destruct (Quote.stock_record stock v) as [r | e]; [reflexivity |].
  cbv beta iota. destruct (exn_class_eqb (exn_cls e) KeyError); reflexivity.
Qed.

Lemma run_coingecko_fetch (s : CoinGecko.self) w cg items pd1 t1 r2 t2 :
  json (network w (CoinGecko.price_request s)) = Ok cg ->
  Py.items cg = Ok items ->
  for_each items (CoinGecko.coin_body s) [] w = (Ok pd1, t1) ->
  for_each (Py.split_comma (PriceAPI.stocks (CoinGecko.base s)))
    (Quote.loop_body CoinGecko.FH_API (CoinGecko.api_key s)) pd1 w = (r2, t2) ->
  CoinGecko.fetch_price_data s w =
  (match r2 with
   | Ok pd2 => Ok (Some pd2)
   | Raise e => Raise e
   end,
   [Log INFO (LogText "`fetch_price_data` called.");
    Log INFO (LogFetching (CoinGecko.symbol_map s)
                (PriceAPI.stocks (CoinGecko.base s)));
    HttpGet (CoinGecko.price_request s)]
     ++ t1 ++ t2
     ++ match r2 with
        | Ok pd2 => [Log INFO (LogRecords pd2)]
        | Raise _ => []
        end)%list.
Proof.
  intros Hj Hi H1 H2. unfold CoinGecko.fetch_price_data.
  rewrite run_bind. unfold logger_info at 1. cbv beta iota.
  rewrite run_bind. unfold logger_info at 1. cbv beta iota.
  rewrite run_bind. unfold requests_get at 1. cbv beta iota.
  rewrite run_bind. unfold lift at 1. rewrite Hj. cbv beta iota.
  rewrite run_bind. unfold lift at 1. rewrite Hi. cbv beta iota.
  rewrite run_bind, H1. cbv beta iota.
  rewrite run_bind, H2. destruct r2 as [pd2 | e]; cbv beta iota.
  - rewrite run_bind. unfold logger_info at 1. cbv beta iota.
    cbn [ret M_monad app]. reflexivity.
  - cbn [app]. now rewrite app_nil_r.
Qed.

Lemma run_finnhub_fetch (s : FinnHub.self) w r t :
  for_each (Py.split_comma (PriceAPI.stocks (FinnHub.base s)))
    (Quote.loop_body FinnHub.API (FinnHub.api_key s)) [] w = (r, t) ->
  FinnHub.fetch_price_data s w =
  (match r with
   | Ok pd => Ok (Some pd)
   | Raise e => Raise e
   end, Log INFO (LogText "`fetch_price_data` called.") :: t).
Proof.
  intros H. unfold FinnHub.fetch_price_data.
  rewrite run_bind. unfold logger_info at 1. cbv beta iota.
  rewrite run_bind, H. destruct r as [pd | e]; cbn [ret M_monad app].
  - now rewrite app_nil_r.
  - reflexivity.
Qed.

Lemma split_comma_first (s : string) :
  exists first rest, Py.split_comma s = first :: rest.
Proof.
  induction s as [| c s (f & r & IH)]; cbn.
  - now exists EmptyString, [].
  - destruct (Ascii.eqb c ","); [now eauto |]. rewrite IH. now eauto.
Qed.

(** ** C8 *)

Lemma run_coin_body (s : CoinGecko.self) coin_id data pd w :
  CoinGecko.coin_body s (coin_id, data) pd w =
  (match CoinGecko.coin_strings data with
   | Ok (p, c) =>
       match assoc coin_id (CoinGecko.symbol_map s) with
       | Some x => Ok (pd ++ [{| symbol := x; price := p; change_24h := c |}])%list
       | None => builtin_error KeyError
       end
   | Raise e => if exn_class_eqb (exn_cls e) KeyError then Ok pd else Raise e
   end, []).
Proof.
  unfold CoinGecko.coin_body. rewrite run_bind. unfold try_except, lift.
  destruct (CoinGecko.coin_strings data) as [[p c] | e]; cbn.
  - destruct (assoc coin_id (CoinGecko.symbol_map s)); reflexivity.
  - destruct (exn_class_eqb (exn_cls e) KeyError); reflexivity.
Qed.

Lemma coin_loop_symbols (s : CoinGecko.self) (P : price_record -> Prop) :
  (forall k x p c, assoc k (CoinGecko.symbol_map s) = Some x ->
                   P {| symbol := x; price := p; change_24h := c |}) ->
  forall items pd w pd' t,
    Forall P pd ->
    for_each items (CoinGecko.coin_body s) pd w = (Ok pd', t) ->
    Forall P pd'.
Proof.
  intros HP items.
  induction items as [| [k d] items IH]; intros pd w pd' t Hpd H.
  - cbn in H. now inversion H; subst.
  - cbn [for_each] in H. rewrite run_bind, run_coin_body in H.
    destruct (CoinGecko.coin_strings d) as [[p c] | e].
    + destruct (assoc k (CoinGecko.symbol_map s)) as [x |] eqn:E;
        [| discriminate H].
      destruct (for_each items (CoinGecko.coin_body s) _ w) as [r t2] eqn:E2.
      inversion H; subst. eapply IH; [| exact E2].
      apply Forall_app. split; [exact Hpd |]. constructor; [| constructor].
      eapply HP, E.
    + destruct (exn_class_eqb (exn_cls e) KeyError); [| discriminate H].
      destruct (for_each items (CoinGecko.coin_body s) pd w) as [r t2] eqn:E2.
      inversion H; subst. eapply IH; eassumption.
Qed.

(** C8: the run of a CoinGecko adapter (its result and every event,
    the simple-price request among them) is the same whatever
    [symbols] it was constructed with.  The adapter always carries the
    fixed pair bitcoin/BTC, ethereum/ETH: its request asks for
    ["bitcoin,ethereum"], and every record of the coin loop bears one
    of the two symbols. *)
Theorem coingecko_ignores_symbols (symbols1 symbols2 currency stocks : string)
    (w : world) :
  (i <- construct CoinGecko_cls symbols1 currency stocks ;; fetch_price_data i) w
  = (i <- construct CoinGecko_cls symbols2 currency stocks ;; fetch_price_data i) w
  /\ forall s t,
       CoinGecko.init symbols1 currency stocks w = (Ok s, t) ->
       CoinGecko.symbol_map s = fixed_pair
       /\ CoinGecko.price_request s =
          {| url := "https://api.coingecko.com/api/v3/simple/price";
             params := [("ids", "bitcoin,ethereum");
                        ("vs_currencies", currency);
                        ("include_24hr_change", "true")];
             headers := [] |}
       /\ forall items w' pd t',
            for_each items (CoinGecko.coin_body s) [] w' = (Ok pd, t') ->
            Forall (fun r => symbol r = "BTC" \/ symbol r = "ETH") pd.
Proof.
  assert (E : forall symbols,
             CoinGecko.init symbols currency stocks w =
             if String.eqb currency "usd" then
               (match environ w "FINNHUB_API_KEY" with
                | Some k =>
                    Ok {| CoinGecko.base :=
                            {| PriceAPI.symbols := symbols;
                               PriceAPI.stocks := stocks;
                               PriceAPI.currency := currency |};
                          CoinGecko.symbol_map := fixed_pair;
                          CoinGecko.api_key := k |}
                | None => Raise (Exn RuntimeError
                             (Some "FINNHUB_API_KEY environment variable must be set."))
                end, [EnvRead "FINNHUB_API_KEY"])
             else (Raise (Exn ValueError
                     (Some ("CURRENCY=" ++ currency
                              ++ " is not supported. Options are: ['usd']."))), [])).
  { intros symbols. unfold CoinGecko.init, CoinGecko.supported_currencies.
    rewrite run_bind, init_base_usd.
    destruct (String.eqb currency "usd"); [| reflexivity].
    rewrite run_bind, read_key.
    destruct (environ w "FINNHUB_API_KEY"); reflexivity. }
  split.
  - unfold construct. rewrite !run_bind, !E.
    destruct (String.eqb currency "usd"); [| reflexivity].
    destruct (environ w "FINNHUB_API_KEY"); reflexivity.
  - intros s t H. rewrite E in H.
    destruct (String.eqb currency "usd"); [| discriminate H].
    destruct (environ w "FINNHUB_API_KEY"); [| discriminate H].
    inversion H; subst. repeat split.
    intros items w' pd t' Hrun.
    eapply coin_loop_symbols; [| constructor | exact Hrun].
    intros k x p c Hk. cbn in Hk.
    destruct (String.eqb k "bitcoin"); [inversion Hk; now left |].
    destruct (String.eqb k "ethereum"); [inversion Hk; now right |].
    discriminate Hk.
Qed.

Lemma coingecko_ignores_symbols_witness :
  (i <- construct CoinGecko_cls "DOGE" "usd" "AAPL" ;; fetch_price_data i)
    scenario_world
  = (i <- construct CoinGecko_cls "BTC,ETH" "usd" "AAPL" ;; fetch_price_data i)
      scenario_world
  /\ exists s,
       CoinGecko.init "DOGE" "usd" "AAPL" scenario_world
       = (Ok s, [EnvRead "FINNHUB_API_KEY"])
       /\ CoinGecko.symbol_map s = fixed_pair
       /\ params (CoinGecko.price_request s)
          = [("ids", "bitcoin,ethereum"); ("vs_currencies", "usd");
             ("include_24hr_change", "true")].
Proof.
  destruct (coingecko_ignores_symbols "DOGE" "BTC,ETH" "usd" "AAPL"
              scenario_world) as [Hrun Hpair].
  split; [exact Hrun |].
  eexists. split; [reflexivity |].
  destruct (Hpair _ _ eq_refl) as (Hmap & Hreq & _).
  split; [exact Hmap | now rewrite Hreq].
Defined.

(** ** C1 *)

(** C1: the CoinGecko/FinnHub adapter built with [stocks="AAPL"] and
    currency ["usd"], answered by CoinGecko with
    [{"bitcoin": {"usd": 50000.1234, "usd_24h_change": 2.345}}] and by
    FinnHub with [{"c": 110.0, "o": 100.0}] for AAPL, returns the BTC
    record and then the AAPL record, formatted as stated. *)
Theorem coingecko_scenario (symbols key : string) (w : world) :
  environ w "FINNHUB_API_KEY" = Some key ->
  decoded (network w (simple_price_request "usd")) = Some simple_price_body ->
  decoded (network w (finnhub_quote_request "AAPL" key)) = Some aapl_quote_body ->
  fst ((i <- construct CoinGecko_cls symbols "usd" "AAPL" ;;
        fetch_price_data i) w)
  = Ok (Some [ {| symbol := "BTC"; price := "$50,000.12"; change_24h := "2.3%" |};
               {| symbol := "AAPL"; price := "$110.00"; change_24h := "10.0%" |} ]).
Proof.
  intros Hkey Hcg Hfh.
  unfold construct. rewrite run_bind, run_bind, run_coingecko_init, Hkey.
  cbn [String.eqb Ascii.eqb Bool.eqb]. cbv beta iota.
  cbn [ret M_monad]. cbv beta iota. cbn [fetch_price_data].
  erewrite run_coingecko_fetch
    with (r2 := Ok [ {| symbol := "BTC"; price := "$50,000.12";
                        change_24h := "2.3%" |};
                     {| symbol := "AAPL"; price := "$110.00";
                        change_24h := "10.0%" |} ]).
  - reflexivity.
  - change (CoinGecko.price_request _) with (simple_price_request "usd").
    unfold json. rewrite Hcg. reflexivity.
  - reflexivity.
  - cbn [for_each simple_price_body]. rewrite run_bind, run_coin_body.
    replace (CoinGecko.coin_strings _) with (Ok ("$50,000.12", "2.3%"))
      by (vm_compute; reflexivity).
    reflexivity.
  - cbn [CoinGecko.base PriceAPI.stocks CoinGecko.api_key Py.split_comma
           Ascii.eqb Bool.eqb for_each].
    rewrite run_bind, run_quote_loop_body.
    change (Quote.quote_request CoinGecko.FH_API "AAPL" key)
      with (finnhub_quote_request "AAPL" key).
    unfold json. rewrite Hfh.
    replace (Quote.stock_record "AAPL" aapl_quote_body)
      with (Ok {| symbol := "AAPL"; price := "$110.00"; change_24h := "10.0%" |})
      by (vm_compute; reflexivity).
    reflexivity.
Qed.

Lemma coingecko_scenario_witness :
  fst ((i <- construct CoinGecko_cls "BTC,ETH" "usd" "AAPL" ;;
        fetch_price_data i) scenario_world)
  = Ok (Some [ {| symbol := "BTC"; price := "$50,000.12"; change_24h := "2.3%" |};
               {| symbol := "AAPL"; price := "$110.00"; change_24h := "10.0%" |} ]).
Proof.
  apply (coingecko_scenario "BTC,ETH" "token" scenario_world); reflexivity.
Defined.

(** ** C10 *)

Lemma truediv_by_zero (c o : pyval) :
  is_number c = true -> equals_zero o = true ->
  Py.truediv c o = builtin_error ZeroDivisionError.
Proof.
  destruct c as [| | n | f | | |]; try discriminate;
    destruct o as [| | m | g | | |]; try discriminate;
    cbn [is_number equals_zero]; intros Hc Ho.
  - apply Z.eqb_eq in Ho. subst m. reflexivity.
  - unfold Py.truediv, Py.float_of_int.
    destruct (PyFloat.of_int n); [| discriminate]. now rewrite Ho.
  - apply Z.eqb_eq in Ho. subst m. reflexivity.
  - unfold Py.truediv. now rewrite Ho.
Qed.

Lemma stock_record_zero_open stock quote c o :
  Py.getitem quote "c" = Ok c -> Py.getitem quote "o" = Ok o ->
  is_number c = true -> equals_zero o = true ->
  Quote.stock_record stock quote = builtin_error ZeroDivisionError.
Proof.
  intros Hc Ho Nc Zo. unfold Quote.stock_record.
  cbn [bind result_monad]. rewrite Hc, Ho, (truediv_by_zero c o Nc Zo).
  reflexivity.
Qed.

Lemma stock_loop_zero_open api key stocks pd w quote c o :
  decoded (network w (Quote.quote_request api (first_ticker stocks) key))
    = Some quote ->
  Py.getitem quote "c" = Ok c -> Py.getitem quote "o" = Ok o ->
  is_number c = true -> equals_zero o = true ->
  for_each (Py.split_comma stocks) (Quote.loop_body api key) pd w =
  (builtin_error ZeroDivisionError,
   [HttpGet (Quote.quote_request api (first_ticker stocks) key)]).
Proof.
  intros Hq Hc Ho Nc Zo. unfold first_ticker in *.
  destruct (split_comma_first stocks) as (f & r & E). rewrite E in *.
  cbn [hd] in Hq. cbn [for_each hd].
  rewrite run_bind, run_quote_loop_body. unfold json. rewrite Hq.
  now rewrite (stock_record_zero_open f quote c o Hc Ho Nc Zo).
Qed.

(** C10: a FinnHub quote that has both ["c"] and ["o"], with ["o"]
    equal to zero, is not skipped: the division raises
    [ZeroDivisionError], which the [except KeyError] of the stock loop
    lets through, out of [FinnHub.fetch_price_data] and, once the coin
    loop is over, out of [CoinGecko.fetch_price_data]. *)
Theorem zero_open_price_raises (key stocks : string) (w : world)
    (quote c o : pyval) :
  decoded (network w (finnhub_quote_request (first_ticker stocks) key))
    = Some quote ->
  Py.getitem quote "c" = Ok c -> Py.getitem quote "o" = Ok o ->
  is_number c = true -> equals_zero o = true ->
  (forall s : FinnHub.self,
     PriceAPI.stocks (FinnHub.base s) = stocks -> FinnHub.api_key s = key ->
     fst (FinnHub.fetch_price_data s w) = Raise (Exn ZeroDivisionError None))
  /\ (forall (s : CoinGecko.self) cg items pd t,
        PriceAPI.stocks (CoinGecko.base s) = stocks ->
        CoinGecko.api_key s = key ->
        json (network w (CoinGecko.price_request s)) = Ok cg ->
        Py.items cg = Ok items ->
        for_each items (CoinGecko.coin_body s) [] w = (Ok pd, t) ->
        fst (CoinGecko.fetch_price_data s w) = Raise (Exn ZeroDivisionError None)).
Proof.
  intros Hq Hc Ho Nc Zo. split.
  - intros s Hs Hk.
    erewrite run_finnhub_fetch
      by (rewrite Hs, Hk; eapply stock_loop_zero_open; eassumption).
    reflexivity.
  - intros s cg items pd t Hs Hk Hj Hi Hl.
    erewrite run_coingecko_fetch; [| exact Hj | exact Hi | exact Hl |].
    2: { rewrite Hs, Hk. eapply stock_loop_zero_open; eassumption. }
    reflexivity.
Qed.

Lemma zero_open_price_raises_witness :
  fst ((i <- construct FinnHub_cls "BTC" "usd" "AAPL,MSFT" ;;
        fetch_price_data i) halted_world) = Raise (Exn ZeroDivisionError None)
  /\ fst ((i <- construct CoinGecko_cls "BTC" "usd" "AAPL,MSFT" ;;
           fetch_price_data i) halted_world) = Raise (Exn ZeroDivisionError None).
Proof.
  destruct (zero_open_price_raises "token" "AAPL,MSFT" halted_world
              (PDict [("c", PFloat (PyFloat.of_decimal false 1100 (-1)));
                      ("o", PFloat (S754_zero false))])
              (PFloat (PyFloat.of_decimal false 1100 (-1)))
              (PFloat (S754_zero false))
              eq_refl eq_refl eq_refl eq_refl eq_refl) as [HF HC].
  split.
  - exact (HF {| FinnHub.base := {| PriceAPI.symbols := "BTC";
                                    PriceAPI.stocks := "AAPL,MSFT";
                                    PriceAPI.currency := "usd" |};
                 FinnHub.api_key := "token" |} eq_refl eq_refl).
  - exact (HC {| CoinGecko.base := {| PriceAPI.symbols := "BTC";
                                      PriceAPI.stocks := "AAPL,MSFT";
                                      PriceAPI.currency := "usd" |};
                 CoinGecko.symbol_map := [("bitcoin", "BTC"); ("ethereum", "ETH")];
                 CoinGecko.api_key := "token" |}
              (PDict []) [] [] [] eq_refl eq_refl eq_refl eq_refl eq_refl).
Defined.

(** ** C5 *)

(** What CoinMarketCap does with a body that is not JSON: the error is
    logged with the text and the bare [return] yields [None]. *)
Lemma coinmarketcap_undecodable_body (s : CoinMarketCap.self) (w : world) :
  decoded (network w (CoinMarketCap.quotes_request s)) = None ->
  CoinMarketCap.fetch_price_data s w =
  (Ok None,
   [Log INFO (LogText "`fetch_price_data` called.");
    HttpGet (CoinMarketCap.quotes_request s);
    Log ERROR (LogText ("JSON decode error: "
                          ++ text (network w (CoinMarketCap.quotes_request s))))]).
Proof.
  intros H. unfold CoinMarketCap.fetch_price_data.
  rewrite run_bind. unfold logger_info at 1. cbv beta iota.
  rewrite run_bind. unfold requests_get at 1. cbv beta iota.
  rewrite run_bind. unfold try_except, lift, json. rewrite H.
  reflexivity.
Qed.

(** The other adapters call [.json()] outside any [try]. *)
Lemma coingecko_undecodable_body (s : CoinGecko.self) (w : world) :
  decoded (network w (CoinGecko.price_request s)) = None ->
  fst (CoinGecko.fetch_price_data s w) = Raise (Exn JSONDecodeError None).
Proof.
  intros H. unfold CoinGecko.fetch_price_data.
  rewrite run_bind. unfold logger_info at 1. cbv beta iota.
  rewrite run_bind. unfold logger_info at 1. cbv beta iota.
  rewrite run_bind. unfold requests_get at 1. cbv beta iota.
  rewrite run_bind. unfold lift at 1, json. rewrite H. reflexivity.
Qed.

Lemma quote_loop_undecodable_body api key stocks pd w :
  decoded (network w (Quote.quote_request api (first_ticker stocks) key)) = None ->
  fst (for_each (Py.split_comma stocks) (Quote.loop_body api key) pd w)
  = Raise (Exn JSONDecodeError None).
Proof.
  intros H. unfold first_ticker in H.
  destruct (split_comma_first stocks) as (f & r & E). rewrite E in *.
  cbn [hd] in H. cbn [for_each].
  rewrite run_bind, run_quote_loop_body. unfold json. now rewrite H.
Qed.

(** C5, on the code: during an outage in which every provider answers
    with a page that is not JSON, only CoinMarketCap behaves as the
    claim says (the error is logged and the call returns [None], not
    an empty list); CoinGecko, FinnHub and AlphaVantage raise the
    decode error. *)
Theorem undecodable_body_by_adapter :
  (i <- construct CoinMarketCap_cls "BTC" "usd" "AAPL" ;; fetch_price_data i)
    outage_world =
  (Ok None,
   [EnvRead "CMC_API_KEY";
    Log INFO (LogText "`fetch_price_data` called.");
    HttpGet {| url := "https://pro-api.coinmarketcap.com/v1/cryptocurrency/quotes/latest";
               params := [("symbol", "BTC")];
               headers := [("X-CMC_PRO_API_KEY", "token")] |};
    Log ERROR (LogText "JSON decode error: <html>502 Bad Gateway</html>")])
  /\ fst ((i <- construct CoinGecko_cls "BTC" "usd" "AAPL" ;; fetch_price_data i)
            outage_world) = Raise (Exn JSONDecodeError None)
  /\ fst ((i <- construct FinnHub_cls "BTC" "usd" "AAPL" ;; fetch_price_data i)
            outage_world) = Raise (Exn JSONDecodeError None)
  /\ fst ((i <- construct AlphaVantage_cls "BTC" "usd" "AAPL" ;; fetch_price_data i)
            outage_world) = Raise (Exn JSONDecodeError None).
Proof. repeat split; vm_compute; reflexivity. Qed.

(** ** C6 *)

Lemma format_number grouped d v :
  is_number v = true ->
  Py.format_f grouped d v = Ok (Fmt.fixed grouped d (number_value v)).
Proof.
  destruct v as [| | n | f | | |]; try discriminate; cbn; [| reflexivity].
  unfold Py.float_of_int. now destruct (PyFloat.of_int n).
Qed.

Lemma entry_record_classified sym data k :
  classify data = Some k ->
  CoinMarketCap.entry_record sym data =
  match k with
  | Complete p c => Ok (normalised sym p c)
  | Incomplete => builtin_error KeyError
  end.
Proof.
  unfold classify, CoinMarketCap.entry_record.
  destruct data as [| | | | | | kv]; try discriminate.
  cbn [Py.getitem bind result_monad].
  destruct (assoc "quote" kv) as [[| | | | | | q] |];
    try discriminate; [| now intros [= <-]].
  cbn [Py.getitem bind result_monad].
  destruct (assoc "USD" q) as [[| | | | | | u] |];
    try discriminate; [| now intros [= <-]].
  cbn [Py.getitem bind result_monad].
  destruct (assoc "price" u) as [p |]; [| now intros [= <-]].
  destruct (assoc "percent_change_24h" u) as [c |].
  - destruct (is_number p) eqn:Np; [| discriminate].
    destruct (is_number c) eqn:Nc; [| discriminate].
    intros [= <-]. cbn [andb].
    now rewrite (format_number true 2 p Np), (format_number false 1 c Nc).
  - destruct (is_number p) eqn:Np; [| discriminate].
    intros [= <-]. now rewrite (format_number true 2 p Np).
Qed.

Lemma run_cmc_loop_body sym data pd w :
  CoinMarketCap.loop_body (sym, data) pd w =
  (match CoinMarketCap.entry_record sym data with
   | Ok r => Ok (pd ++ [r])%list
   | Raise e => if exn_class_eqb (exn_cls e) KeyError then Ok pd else Raise e
   end, []).
Proof.
  unfold CoinMarketCap.loop_body, try_except. rewrite run_bind. unfold lift.
  destruct (CoinMarketCap.entry_record sym data) as [r | e]; [reflexivity |].
  cbv beta iota. destruct (exn_class_eqb (exn_cls e) KeyError); reflexivity.
Qed.

Lemma cmc_loop_classified items :
  Forall (fun item => classify (snd item) <> None) items ->
  forall pd w,
    for_each items CoinMarketCap.loop_body pd w =
    (Ok (pd ++ complete_records items)%list, []).
Proof.
  induction 1 as [| [sym data] items Hc _ IH]; intros pd w.
  - cbn. now rewrite app_nil_r.
  - cbn [for_each complete_records snd] in *.
    rewrite run_bind, run_cmc_loop_body.
    destruct (classify data) as [[p c | ] |] eqn:E; [| | congruence].
    + rewrite (entry_record_classified sym data _ E). cbv beta iota.
      rewrite IH. cbn [app]. now rewrite <- app_assoc.
    + rewrite (entry_record_classified sym data _ E).
      cbn [builtin_error exn_cls exn_class_eqb]. cbv beta iota.
      now rewrite IH.
Qed.

Lemma run_cmc_fetch (s : CoinMarketCap.self) w body data items r t :
  decoded (network w (CoinMarketCap.quotes_request s)) = Some body ->
  Py.get body "data" (PDict []) = Ok data ->
  Py.items data = Ok items ->
  for_each items CoinMarketCap.loop_body [] w = (r, t) ->
  CoinMarketCap.fetch_price_data s w =
  (match r with
   | Ok pd => Ok (Some pd)
   | Raise e => Raise e
   end,
   Log INFO (LogText "`fetch_price_data` called.")
     :: HttpGet (CoinMarketCap.quotes_request s) :: t).
Proof.
  intros Hb Hd Hi Hl. unfold CoinMarketCap.fetch_price_data.
  rewrite run_bind. unfold logger_info at 1. cbv beta iota.
  rewrite run_bind. unfold requests_get at 1. cbv beta iota.
  rewrite run_bind. unfold try_except, lift, json. rewrite Hb.
  cbn [bind result_monad]. rewrite Hd, Hi. cbn [ret result_monad].
  cbv beta iota. rewrite run_bind, Hl.
  destruct r as [pd | e]; cbn [ret M_monad app].
  - now rewrite app_nil_r.
  - reflexivity.
Qed.

(** C6: when every entry of the [data] mapping either has full quote
    data or lacks a key on the way to its price or its change (one
    such entry, several, or all of them), the fetch does not raise: it
    returns the records of the complete entries, in order, and nothing
    for the others; no error is logged or raised for them. *)
Theorem incomplete_entries_are_omitted (s : CoinMarketCap.self) (w : world)
    (body : pyval) (items : list (string * pyval)) :
  decoded (network w (CoinMarketCap.quotes_request s)) = Some body ->
  Py.get body "data" (PDict []) = Ok (PDict items) ->
  Forall (fun item => classify (snd item) <> None) items ->
  CoinMarketCap.fetch_price_data s w =
  (Ok (Some (complete_records items)),
   [Log INFO (LogText "`fetch_price_data` called.");
    HttpGet (CoinMarketCap.quotes_request s)])
  /\ (Forall (fun item => classify (snd item) = Some Incomplete) items ->
      complete_records items = []).
Proof.
  intros Hb Hd Hc. split.
  - erewrite run_cmc_fetch;
      [| exact Hb | exact Hd | reflexivity | apply cmc_loop_classified, Hc].
    reflexivity.
  - clear. induction 1 as [| [sym data] items E _ IH]; [reflexivity |].
    cbn in *. now rewrite E.
Qed.

Lemma incomplete_entries_are_omitted_witness :
  CoinMarketCap.fetch_price_data cmc_self
    (cmc_world [("BTC", usd_quote btc_fields);
                ("ETH", usd_quote [("price", PInt 2301)])])
  = (Ok (Some [{| symbol := "BTC"; price := "$43,250.50";
                  change_24h := "-1.2%" |}]),
     [Log INFO (LogText "`fetch_price_data` called.");
      HttpGet (CoinMarketCap.quotes_request cmc_self)])
  /\ CoinMarketCap.fetch_price_data cmc_self
       (cmc_world [("BTC", usd_quote [("percent_change_24h", PInt 3)]);
                   ("ETH", usd_quote [("price", PInt 2301)])])
     = (Ok (Some []),
        [Log INFO (LogText "`fetch_price_data` called.");
         HttpGet (CoinMarketCap.quotes_request cmc_self)]).
Proof.
  split.
  - apply (proj1 (incomplete_entries_are_omitted cmc_self
                    (cmc_world [("BTC", usd_quote btc_fields);
                                ("ETH", usd_quote [("price", PInt 2301)])])
                    (PDict [("status", PDict []);
                            ("data", PDict [("BTC", usd_quote btc_fields);
                                            ("ETH", usd_quote [("price", PInt 2301)])])])
                    [("BTC", usd_quote btc_fields);
                     ("ETH", usd_quote [("price", PInt 2301)])]
                    eq_refl eq_refl
                    ltac:(repeat constructor; discriminate))).
  - set (items := [("BTC", usd_quote [("percent_change_24h", PInt 3)]);
                   ("ETH", usd_quote [("price", PInt 2301)])]).
    destruct (incomplete_entries_are_omitted cmc_self (cmc_world items)
                (PDict [("status", PDict []); ("data", PDict items)]) items
                eq_refl eq_refl ltac:(repeat constructor; discriminate))
      as [Hrun Hnone].
    rewrite Hrun, Hnone; [reflexivity | repeat constructor].
Defined.

(** ** C2 *)

Lemma digit_char_is_digit (k : Z) :
  0 <= k < 10 -> is_digit (Fmt.digit_char k) = true.
Proof.
  intros H.
  assert (E : k = 0 \/ k = 1 \/ k = 2 \/ k = 3 \/ k = 4 \/ k = 5 \/ k = 6
              \/ k = 7 \/ k = 8 \/ k = 9) by lia.
  repeat (destruct E as [-> | E]; [reflexivity |]). now subst.
Qed.

Lemma mod10_digit (n : Z) : is_digit (Fmt.digit_char (n mod 10)) = true.
Proof. apply digit_char_is_digit, Z.mod_pos_bound. lia. Qed.

Lemma uint_digits (d : Decimal.uint) :
  forallb is_digit (list_ascii_of_string (NilEmpty.string_of_uint d)) = true.
Proof. induction d; cbn; auto. Qed.

Lemma int_digits_spec (n : Z) :
  forallb is_digit (Fmt.int_digits n) = true /\ Fmt.int_digits n <> [].
Proof.
  unfold Fmt.int_digits, NilZero.string_of_uint.
  destruct (N.to_uint (Z.to_N n)) as [| d | d | d | d | d | d | d | d | d | d] eqn:E;
    (split; [first [reflexivity | rewrite <- E at 1; apply uint_digits] | discriminate]).
Qed.

Lemma group_rev_grouped (n : nat) :
  forall l, (List.length l <= n)%nat -> l <> [] ->
            forallb is_digit l = true ->
            grouped_rev (Fmt.group_rev l) = true.
Proof.
  induction n as [| n IH]; intros l Hn Hl Hd.
  - destruct l; [congruence | cbn in Hn; lia].
  - destruct l as [| a [| b [| c [| d rest]]]]; [congruence | | | |];
      cbn [forallb] in Hd; repeat rewrite andb_true_iff in Hd.
    + cbn. tauto.
    + cbn. destruct Hd as (-> & -> & _). reflexivity.
    + cbn. destruct Hd as (-> & -> & -> & _). reflexivity.
    + destruct Hd as (Ha & Hb & Hc & Hd & Hrest).
      change (Fmt.group_rev (a :: b :: c :: d :: rest))
        with (a :: b :: c :: ","%char :: Fmt.group_rev (d :: rest)).
      cbn [grouped_rev]. rewrite Ha, Hb, Hc. cbn [andb Ascii.eqb Bool.eqb].
      apply IH; [cbn in *; lia | discriminate |].
      cbn [forallb]. now rewrite Hd, Hrest.
Qed.

Lemma group_int_digits (n : Z) :
  grouped_rev (rev (Fmt.group (Fmt.int_digits n))) = true.
Proof.
  unfold Fmt.group. rewrite rev_involutive.
  destruct (int_digits_spec n) as [Hd Hne].
  apply (group_rev_grouped (List.length (rev (Fmt.int_digits n)))).
  - lia.
  - intros E. apply Hne. now rewrite <- (rev_involutive (Fmt.int_digits n)), E.
  - rewrite forallb_forall in *. intros x Hx. apply Hd. now apply in_rev.
Qed.

Lemma signed_sign_str p s l :
  p l = true -> signed p (Fmt.sign_str s ++ l)%list = true.
Proof.
  intros H. unfold signed. destruct s; cbn [Fmt.sign_str app].
  - cbn [Ascii.eqb Bool.eqb andb]. rewrite H. apply orb_true_r.
  - now rewrite H.
Qed.

Lemma fixed_digits_grouped_2dp s n :
  signed grouped_2dp (Fmt.fixed_digits true 2 s n) = true.
Proof.
  unfold Fmt.fixed_digits. apply signed_sign_str. unfold grouped_2dp.
  cbn [Fmt.frac_digits app]. rewrite rev_app_distr. cbn [rev app].
  rewrite !mod10_digit, group_int_digits. reflexivity.
Qed.

Lemma fixed_digits_1dp s n :
  signed plain_1dp_percent
    (Fmt.fixed_digits false 1 s n ++ ["%"%char])%list = true.
Proof.
  unfold Fmt.fixed_digits. rewrite <- app_assoc. apply signed_sign_str.
  unfold plain_1dp_percent. cbn [Fmt.frac_digits app].
  rewrite <- app_assoc, rev_app_distr. cbn [rev app].
  destruct (int_digits_spec (n / 10 ^ Z.of_nat 1)) as [Hd Hne].
  rewrite mod10_digit. cbn [Ascii.eqb Bool.eqb andb].
  rewrite andb_true_iff. split.
  - rewrite length_rev. now destruct (Fmt.int_digits (n / 10 ^ Z.of_nat 1)).
  - rewrite forallb_forall in *. intros x Hx. apply Hd. now apply in_rev.
Qed.

Lemma list_ascii_of_string_app (a b : string) :
  list_ascii_of_string (a ++ b) =
  (list_ascii_of_string a ++ list_ascii_of_string b)%list.
Proof. induction a as [| c a IH]; cbn; [reflexivity | now rewrite IH]. Qed.

(** The text of a finite number with two grouped decimals behind a
    dollar sign, and with one decimal before a percent sign. *)
Lemma price_text_shape (f : spec_float) :
  PyFloat.is_finite f = true ->
  is_price_text ("$" ++ Fmt.fixed true 2 f) = true.
Proof.
  intros Hf. unfold is_price_text.
  change ("$" ++ Fmt.fixed true 2 f) with (String "$" (Fmt.fixed true 2 f)).
  cbn [list_ascii_of_string Ascii.eqb Bool.eqb andb].
  destruct f as [s | s | | s m e]; try discriminate; unfold Fmt.fixed;
    rewrite list_ascii_of_string_of_list_ascii;
    apply fixed_digits_grouped_2dp.
Qed.

Lemma percent_text_shape (f : spec_float) :
  PyFloat.is_finite f = true ->
  is_percent_text (Fmt.fixed false 1 f ++ "%") = true.
Proof.
  intros Hf. unfold is_percent_text. rewrite list_ascii_of_string_app.
  destruct f as [s | s | | s m e]; try discriminate; unfold Fmt.fixed;
    rewrite list_ascii_of_string_of_list_ascii;
    apply fixed_digits_1dp.
Qed.

(** *** What a formatted text denotes *)

Lemma digits_from_app acc l1 l2 :
  digits_from acc (l1 ++ l2) = digits_from (digits_from acc l1) l2.
Proof. apply fold_left_app. Qed.

Lemma digits_from_shift acc l :
  digits_from acc l = acc * 10 ^ Z.of_nat (List.length l) + digits_from 0 l.
Proof.
  revert acc. induction l as [| c l IH]; intros acc.
  - cbn. lia.
  - cbn [digits_from fold_left List.length]. fold (digits_from (10 * acc + FloatParse.digit_val c) l).
    fold (digits_from (10 * 0 + FloatParse.digit_val c) l).
    rewrite (IH (10 * acc + _)), (IH (10 * 0 + _)).
    rewrite Nat2Z.inj_succ, Z.pow_succ_r by lia. ring.
Qed.

Ltac eval_digit_val :=
  match goal with
  | |- context [FloatParse.digit_val ?c] =>
      let v := eval vm_compute in (FloatParse.digit_val c) in
      change (FloatParse.digit_val c) with v
  end.

Lemma uint_value_acc (d : Decimal.uint) (acc : positive) :
  digits_from (Zpos acc) (list_ascii_of_string (NilEmpty.string_of_uint d))
  = Zpos (Pos.of_uint_acc d acc).
Proof.
  revert acc. induction d; intros acc; cbn [NilEmpty.string_of_uint
    list_ascii_of_string digits_from fold_left Pos.of_uint_acc];
    [reflexivity | ..];
    match goal with
    | |- fold_left _ _ ?a = Zpos (Pos.of_uint_acc _ ?p) =>
        change (digits_from a (list_ascii_of_string (NilEmpty.string_of_uint d))
                = Zpos (Pos.of_uint_acc d p));
        rewrite <- IHd; f_equal; eval_digit_val; lia
    end.
Qed.

Lemma uint_value (d : Decimal.uint) :
  digits_from 0 (list_ascii_of_string (NilEmpty.string_of_uint d))
  = Z.of_N (N.of_uint d).
Proof.
  unfold N.of_uint.
  induction d; cbn [NilEmpty.string_of_uint list_ascii_of_string digits_from
                      fold_left Pos.of_uint];
    [reflexivity | exact IHd | ..];
    match goal with
    | |- fold_left _ _ ?a = Z.of_N (Npos (Pos.of_uint_acc _ ?p)) =>
        change (digits_from a (list_ascii_of_string (NilEmpty.string_of_uint d))
                = Zpos (Pos.of_uint_acc d p));
        rewrite <- uint_value_acc; f_equal; eval_digit_val; lia
    end.
Qed.

Lemma int_digits_value (n : Z) :
  0 <= n -> digits_from 0 (Fmt.int_digits n) = n.
Proof.
  intros Hn. unfold Fmt.int_digits, NilZero.string_of_uint.
  assert (E : Z.of_N (N.of_uint (N.to_uint (Z.to_N n))) = n)
    by (rewrite DecimalN.Unsigned.of_to; lia).
  revert E. generalize (N.to_uint (Z.to_N n)). intros u <-.
  destruct u; [reflexivity | apply uint_value ..].
Qed.

Lemma digit_val_digit_char (k : Z) :
  0 <= k < 10 -> FloatParse.digit_val (Fmt.digit_char k) = k.
Proof.
  intros H.
  assert (E : k = 0 \/ k = 1 \/ k = 2 \/ k = 3 \/ k = 4 \/ k = 5 \/ k = 6
              \/ k = 7 \/ k = 8 \/ k = 9) by lia.
  repeat (destruct E as [-> | E]; [reflexivity |]). now subst.
Qed.

Lemma frac_digits_length d n : List.length (Fmt.frac_digits d n) = d.
Proof.
  revert n. induction d as [| d IH]; intros n; cbn; [reflexivity |].
  rewrite length_app, IH. cbn. lia.
Qed.

Lemma frac_digits_all d n : forallb is_digit (Fmt.frac_digits d n) = true.
Proof.
  revert n. induction d as [| d IH]; intros n; cbn [Fmt.frac_digits];
    [reflexivity |].
  rewrite forallb_app, IH. cbn [forallb andb]. now rewrite mod10_digit.
Qed.

Lemma frac_digits_value d n :
  digits_from 0 (Fmt.frac_digits d n) = n mod 10 ^ Z.of_nat d.
Proof.
  revert n. induction d as [| d IH]; intros n.
  - cbn. now rewrite Z.mod_1_r.
  - cbn [Fmt.frac_digits]. rewrite digits_from_app, IH.
    cbn [digits_from fold_left].
    rewrite digit_val_digit_char by (apply Z.mod_pos_bound; lia).
    rewrite Nat2Z.inj_succ, Z.pow_succ_r by lia.
    rewrite (Z.rem_mul_r n 10 (10 ^ Z.of_nat d)) by lia. lia.
Qed.

Lemma filter_all {A} (f : A -> bool) (l : list A) :
  forallb f l = true -> filter f l = l.
Proof.
  induction l as [| x l IH]; cbn; [reflexivity |].
  rewrite andb_true_iff. intros [-> H]. now rewrite IH.
Qed.

Lemma filter_rev {A} (f : A -> bool) (l : list A) :
  filter f (rev l) = rev (filter f l).
Proof.
  induction l as [| x l IH]; cbn; [reflexivity |].
  rewrite filter_app, IH. cbn. destruct (f x); cbn; [reflexivity |].
  now rewrite app_nil_r.
Qed.

Lemma group_rev_filter (f : ascii -> bool) (n : nat) :
  f ","%char = false ->
  forall l, (List.length l <= n)%nat ->
            filter f (Fmt.group_rev l) = filter f l.
Proof.
  intros Hf. induction n as [| n IH]; intros l Hn.
  - destruct l; [reflexivity | cbn in Hn; lia].
  - destruct l as [| a [| b [| c [| d rest]]]]; try reflexivity.
    change (Fmt.group_rev (a :: b :: c :: d :: rest))
      with (a :: b :: c :: ","%char :: Fmt.group_rev (d :: rest)).
    cbn [filter]. rewrite Hf.
    rewrite IH by (cbn in *; lia). reflexivity.
Qed.

Lemma group_filter (f : ascii -> bool) (l : list ascii) :
  f ","%char = false -> filter f (Fmt.group l) = filter f l.
Proof.
  intros Hf. unfold Fmt.group.
  rewrite filter_rev, (group_rev_filter f (List.length (rev l)) Hf) by lia.
  now rewrite filter_rev, rev_involutive.
Qed.

Lemma group_digits (l : list ascii) :
  filter is_digit (Fmt.group l) = filter is_digit l.
Proof. now apply group_filter. Qed.

(** The digits of a fixed-point text spell the scaled integer. *)
Lemma fixed_digits_units grouped d s n :
  0 <= n ->
  digits_from 0 (filter is_digit (Fmt.fixed_digits grouped d s n)) = n.
Proof.
  intros Hn. unfold Fmt.fixed_digits.
  assert (Hip : filter is_digit
                  (if grouped then Fmt.group (Fmt.int_digits (n / 10 ^ Z.of_nat d))
                   else Fmt.int_digits (n / 10 ^ Z.of_nat d))
                = Fmt.int_digits (n / 10 ^ Z.of_nat d)).
  { destruct grouped; [rewrite group_digits |];
      apply filter_all, int_digits_spec. }
  assert (Hfp : filter is_digit
                  match d with
                  | O => []
                  | S _ => "."%char :: Fmt.frac_digits d (n mod 10 ^ Z.of_nat d)
                  end
                = Fmt.frac_digits d (n mod 10 ^ Z.of_nat d)).
  { destruct d; [reflexivity |]. cbn [filter].
    change (is_digit ".") with false. cbv iota.
    apply filter_all, frac_digits_all. }
  rewrite !filter_app, Hip, Hfp.
  replace (filter is_digit (Fmt.sign_str s)) with (@nil ascii)
    by (now destruct s).
  cbn [app]. rewrite digits_from_app, digits_from_shift.
  assert (Hp : 0 < 10 ^ Z.of_nat d) by (apply Z.pow_pos_nonneg; lia).
  rewrite int_digits_value by (apply Z.div_pos; lia).
  rewrite frac_digits_length, frac_digits_value, Z.mod_mod by lia.
  pose proof (Z.div_mod n (10 ^ Z.of_nat d)). lia.
Qed.

Lemma round_half_even_nearest (num den : Z) :
  0 <= num -> 0 < den ->
  0 <= Fmt.round_half_even num den
  /\ Z.abs (2 * (num - Fmt.round_half_even num den * den)) <= den.
Proof.
  intros Hn Hd. unfold Fmt.round_half_even.
  pose proof (Z.div_mod num den ltac:(lia)) as E.
  pose proof (Z.mod_pos_bound num den Hd) as Hr.
  pose proof (Z.div_pos num den Hn Hd) as Hq.
  set (q := num / den) in *. set (r := num mod den) in *.
  destruct (Z.compare_spec (2 * r) den) as [H | H | H];
    [destruct (Z.even q) | |]; split; nia.
Qed.

Lemma scaled_nearest d s m e :
  0 <= Fmt.scaled d m e
  /\ nearest_units d (S754_finite s m e) (Fmt.scaled d m e).
Proof.
  assert (Hp : 0 < 10 ^ Z.of_nat d) by (apply Z.pow_pos_nonneg; lia).
  unfold Fmt.scaled, nearest_units. destruct e as [| k | k].
  - split; [nia | reflexivity].
  - split; [| reflexivity].
    assert (0 < 2 ^ Z.pos k) by (apply Z.pow_pos_nonneg; lia). nia.
  - assert (H2 : 0 < 2 ^ Z.pos k) by (apply Z.pow_pos_nonneg; lia).
    apply round_half_even_nearest; nia.
Qed.

Lemma text_units_dollar s : text_units ("$" ++ s) = text_units s.
Proof. reflexivity. Qed.

Lemma text_units_percent s : text_units (s ++ "%") = text_units s.
Proof.
  unfold text_units. rewrite list_ascii_of_string_app, filter_app.
  cbn [list_ascii_of_string filter]. change (is_digit "%") with false.
  cbv iota. now rewrite app_nil_r.
Qed.

(** A finite number is printed as an integer nearest to its magnitude
    in units of the last decimal. *)
Lemma fixed_text_units grouped d f :
  PyFloat.is_finite f = true ->
  nearest_units d f (text_units (Fmt.fixed grouped d f)).
Proof.
  destruct f as [s | s | | s m e]; try discriminate; intros _;
    unfold text_units, Fmt.fixed;
    rewrite list_ascii_of_string_of_list_ascii.
  - rewrite fixed_digits_units by lia. reflexivity.
  - destruct (scaled_nearest d s m e) as [H0 Hn].
    now rewrite fixed_digits_units.
Qed.

Lemma digits_have_no_minus (l : list ascii) :
  forallb is_digit l = true -> filter (Ascii.eqb "-") l = [].
Proof.
  induction l as [| c l IH]; cbn [forallb filter]; [reflexivity |].
  rewrite andb_true_iff. intros [Hc Hl].
  destruct (Ascii.eqb_spec "-" c) as [<- | _]; [discriminate Hc | auto].
Qed.

(** The minus sign is printed exactly for a set sign bit. *)
Lemma fixed_text_sign grouped d f :
  PyFloat.is_finite f = true ->
  has_minus (Fmt.fixed grouped d f) = sign_bit f.
Proof.
  assert (H : forall s n,
             existsb (Ascii.eqb "-") (Fmt.fixed_digits grouped d s n) = s).
  { intros s n. unfold Fmt.fixed_digits. rewrite !existsb_app.
    assert (Hip : existsb (Ascii.eqb "-")
                    (if grouped
                     then Fmt.group (Fmt.int_digits (n / 10 ^ Z.of_nat d))
                     else Fmt.int_digits (n / 10 ^ Z.of_nat d)) = false).
    { apply not_true_is_false. intros E. apply existsb_exists in E.
      destruct E as (x & Hin & Hx).
      assert (In x (filter (Ascii.eqb "-")
                      (Fmt.int_digits (n / 10 ^ Z.of_nat d)))) as Hf.
      { destruct grouped.
        - rewrite <- (group_filter (Ascii.eqb "-")) by reflexivity.
          apply filter_In. now split.
        - apply filter_In. now split. }
      rewrite digits_have_no_minus in Hf by apply int_digits_spec.
      exact Hf. }
    assert (Hfp : existsb (Ascii.eqb "-")
                    match d with
                    | O => []
                    | S _ => "."%char :: Fmt.frac_digits d (n mod 10 ^ Z.of_nat d)
                    end = false).
    { destruct d; [reflexivity |]. cbn [existsb].
      apply not_true_is_false. intros E. cbn [orb Ascii.eqb Bool.eqb] in E.
      apply existsb_exists in E. destruct E as (x & Hin & Hx).
      assert (In x (filter (Ascii.eqb "-")
                      (Fmt.frac_digits (S d) (n mod 10 ^ Z.of_nat (S d))))) as Hf
        by (apply filter_In; now split).
      rewrite digits_have_no_minus in Hf by apply frac_digits_all.
      exact Hf. }
    rewrite Hip, Hfp. now destruct s. }
  destruct f as [s | s | | s m e]; try discriminate; intros _;
    unfold has_minus, Fmt.fixed;
    rewrite list_ascii_of_string_of_list_ascii; apply H.
Qed.

Lemma getitem_ok v k x :
  Py.getitem v k = Ok x -> exists kv, v = PDict kv /\ assoc k kv = Some x.
Proof.
  destruct v as [| | | | | | kv]; try discriminate. cbn.
  destruct (assoc k kv) eqn:E; [| discriminate].
  intros [= <-]. now exists kv.
Qed.

Lemma full_quote_classified data p c :
  full_quote data p c -> is_number p = true -> is_number c = true ->
  classify data = Some (Complete p c).
Proof.
  intros (quote & usd & H1 & H2 & H3 & H4) Np Nc.
  apply getitem_ok in H1 as (kv & -> & E1).
  apply getitem_ok in H2 as (q & -> & E2).
  apply getitem_ok in H3 as (u & -> & E3).
  apply getitem_ok in H4 as (u' & [= <-] & E4).
  cbn. now rewrite E1, E2, E3, E4, Np, Nc.
Qed.

Lemma has_minus_percent s : has_minus (s ++ "%") = has_minus s.
Proof.
  unfold has_minus. rewrite list_ascii_of_string_app, existsb_app.
  cbn. apply orb_false_r.
Qed.

Lemma normalised_well_formatted sym p c :
  PyFloat.is_finite (number_value p) = true ->
  PyFloat.is_finite (number_value c) = true ->
  well_formatted (normalised sym p c) p c.
Proof.
  intros Hp Hc. unfold well_formatted, normalised. cbn [price change_24h].
  repeat split.
  - now apply price_text_shape.
  - now apply percent_text_shape.
  - rewrite text_units_dollar. now apply fixed_text_units.
  - rewrite text_units_percent. now apply fixed_text_units.
  - change (has_minus ("$" ++ Fmt.fixed true 2 (number_value p)))
      with (has_minus (Fmt.fixed true 2 (number_value p))).
    now apply fixed_text_sign.
  - rewrite has_minus_percent. now apply fixed_text_sign.
Qed.

(** C2: a CoinMarketCap response whose [data] mapping has two
    symbols, each with a finite numeric [quote.USD.price] and
    [quote.USD.percent_change_24h], yields exactly two records, one
    per symbol in order; in each the price is ["$"] and the number
    with grouped thousands and two decimals, the change the number
    with one decimal and ["%"]. *)
Theorem two_full_quotes_two_records (s : CoinMarketCap.self) (w : world)
    (body : pyval) (sym1 sym2 : string) (d1 d2 p1 c1 p2 c2 : pyval) :
  decoded (network w (CoinMarketCap.quotes_request s)) = Some body ->
  Py.get body "data" (PDict []) = Ok (PDict [(sym1, d1); (sym2, d2)]) ->
  full_quote d1 p1 c1 -> full_quote d2 p2 c2 ->
  is_finite_number p1 = true -> is_finite_number c1 = true ->
  is_finite_number p2 = true -> is_finite_number c2 = true ->
  exists r1 r2,
    fst (CoinMarketCap.fetch_price_data s w) = Ok (Some [r1; r2])
    /\ symbol r1 = sym1 /\ symbol r2 = sym2
    /\ well_formatted r1 p1 c1 /\ well_formatted r2 p2 c2.
Proof.
  unfold is_finite_number.
  intros Hb Hd F1 F2 Hp1 Hc1 Hp2 Hc2.
  apply andb_true_iff in Hp1 as [Np1 Fp1], Hc1 as [Nc1 Fc1],
      Hp2 as [Np2 Fp2], Hc2 as [Nc2 Fc2].
  pose proof (full_quote_classified d1 p1 c1 F1 Np1 Nc1) as K1.
  pose proof (full_quote_classified d2 p2 c2 F2 Np2 Nc2) as K2.
  exists (normalised sym1 p1 c1), (normalised sym2 p2 c2).
  erewrite run_cmc_fetch;
    [| exact Hb | exact Hd | reflexivity | apply cmc_loop_classified].
  - cbn [complete_records app fst]. rewrite K1, K2.
    repeat split; now apply normalised_well_formatted.
  - repeat constructor; cbn [snd]; congruence.
Qed.

Lemma two_full_quotes_two_records_witness :
  exists r1 r2,
    fst (CoinMarketCap.fetch_price_data cmc_self
           (cmc_world [("BTC", usd_quote btc_fields);
                       ("ETH", usd_quote eth_fields)]))
    = Ok (Some [r1; r2])
    /\ symbol r1 = "BTC" /\ symbol r2 = "ETH"
    /\ well_formatted r1 (PFloat (PyFloat.of_decimal false 432505 (-1)))
         (PFloat (PyFloat.of_decimal true 125 (-2)))
    /\ well_formatted r2 (PInt 2301) (PFloat (PyFloat.of_decimal false 75 (-2))).
Proof.
  apply (two_full_quotes_two_records cmc_self
           (cmc_world [("BTC", usd_quote btc_fields);
                       ("ETH", usd_quote eth_fields)])
           (PDict [("status", PDict []);
                   ("data", PDict [("BTC", usd_quote btc_fields);
                                   ("ETH", usd_quote eth_fields)])])
           "BTC" "ETH" (usd_quote btc_fields) (usd_quote eth_fields));
    try reflexivity.
  - exists (PDict [("USD", PDict btc_fields)]), (PDict btc_fields).
    repeat split.
  - exists (PDict [("USD", PDict eth_fields)]), (PDict eth_fields).
    repeat split.
Defined.

(** ** C7 *)

Lemma div_eucl_multiple (m : positive) (k : Z) :
  Z.div_eucl (Zpos m * k) (Zpos m) = (k, 0).
Proof.
  pose proof (Z.div_mul k (Zpos m) ltac:(lia)) as Hq.
  pose proof (Z.mod_mul k (Zpos m) ltac:(lia)) as Hr.
  rewrite (Z.mul_comm k) in Hq, Hr. unfold Z.div, Z.modulo in Hq, Hr.
  destruct (Z.div_eucl (Zpos m * k) (Zpos m)) as [q r]. cbn in *. congruence.
Qed.

(** A finite, non-zero float divided by itself is exactly [1.0]. *)
Lemma div_self (s : bool) (m : positive) (e : Z) :
  PyFloat.div (S754_finite s m e) (S754_finite s m e) = one.
Proof.
  unfold PyFloat.div, SFdiv, SFdiv_core_binary. cbv zeta.
  replace (Zdigits2 (Zpos m) + e - (Zdigits2 (Zpos m) + e)) with 0 by lia.
  replace (e - e) with 0 by lia.
  change (Z.min (fexp PyFloat.prec PyFloat.emax 0) 0) with (-53).
  change (0 - -53) with 53. cbv iota.
  rewrite Z.shiftl_mul_pow2 by lia. rewrite div_eucl_multiple.
  replace (new_location (Zpos m) 0) with loc_Exact
    by (unfold new_location, new_location_even, new_location_odd;
        now destruct (Z.even (Zpos m))).
  replace (xorb s s) with false by now destruct s.
  vm_compute. reflexivity.
Qed.

Lemma percent_change_one :
  Fmt.fixed false 1 (PriceAPI.percent_change one) ++ "%" = "0.0%".
Proof. vm_compute. reflexivity. Qed.

Lemma make_record_same_price name p f :
  PyConv.float p = Ok f -> PyFloat.is_finite_nonzero f = true ->
  AlphaVantage.make_record name p p =
  Ok {| symbol := name; price := "$" ++ Fmt.fixed true 2 f;
        change_24h := "0.0%" |}.
Proof.
  intros Hf Hn. unfold AlphaVantage.make_record, AlphaVantage.float_ratio.
  cbn [bind result_monad]. rewrite Hf.
  destruct f as [| | | s m e]; try discriminate.
  cbn [PyFloat.is_zero ret result_monad].
  now rewrite div_self, percent_change_one.
Qed.

Lemma stock_record_without_opening_bar stock response meta series bar p stamp f :
  Py.getitem response "Meta Data" = Ok meta ->
  Py.getitem meta "3. Last Refreshed" = Ok (PStr stamp) ->
  Py.getitem response "Time Series (30min)" = Ok series ->
  Py.getitem series stamp = Ok bar ->
  Py.getitem bar "1. open" = Ok p ->
  Py.getitem series (opening_bar_key stamp) = builtin_error KeyError ->
  PyConv.float p = Ok f -> PyFloat.is_finite_nonzero f = true ->
  AlphaVantage.stock_record stock response =
  Ok {| symbol := stock; price := "$" ++ Fmt.fixed true 2 f;
        change_24h := "0.0%" |}.
Proof.
  intros Hm Hs Ht Hb Hp Ha Hf Hn. unfold AlphaVantage.stock_record.
  cbn [bind result_monad]. rewrite Hm, Hs, Ht.
  destruct (getitem_ok _ _ _ Hb) as (kv & -> & Eb).
  cbn [Py.subscript]. rewrite Hb, Hp.
  cbn [Py.bound_get AlphaVantage.opening_key Py.slice_to bind ret result_monad].
  fold (opening_bar_key stamp).
  assert (En : assoc (opening_bar_key stamp) kv = None).
  { cbn in Ha. now destruct (assoc (opening_bar_key stamp) kv). }
  rewrite En. cbn [Py.get Py.bound_get assoc].
  now apply make_record_same_price.
Qed.

(** C7, as the code has it: when the intraday response has the
    refresh stamp and the bar it names, that bar has an opening price,
    and the series has no 9:30 bar for the day of the stamp, the open
    falls back to the recent price; provided the price converts to a
    finite, non-zero float, the ticker gets a record whose
    [change_24h] is exactly ["0.0%"]. *)
Theorem absent_opening_bar_zero_change (s : AlphaVantage.self) (w : world)
    (stock stamp : string) (response meta series bar p : pyval)
    (f : spec_float) (price_data : list price_record) :
  decoded (network w (AlphaVantage.intraday_request s stock)) = Some response ->
  Py.getitem response "Meta Data" = Ok meta ->
  Py.getitem meta "3. Last Refreshed" = Ok (PStr stamp) ->
  Py.getitem response "Time Series (30min)" = Ok series ->
  Py.getitem series stamp = Ok bar ->
  Py.getitem bar "1. open" = Ok p ->
  Py.getitem series (opening_bar_key stamp) = builtin_error KeyError ->
  PyConv.float p = Ok f -> PyFloat.is_finite_nonzero f = true ->
  AlphaVantage.stock_body s stock price_data w =
  (Ok (price_data ++ [{| symbol := stock;
                         price := "$" ++ Fmt.fixed true 2 f;
                         change_24h := "0.0%" |}])%list,
   [HttpGet (AlphaVantage.intraday_request s stock)]).
Proof.
  intros Hr Hm Hs Ht Hb Hp Ha Hf Hn. unfold AlphaVantage.stock_body.
  rewrite run_bind. unfold requests_get at 1. cbv beta iota.
  rewrite run_bind. unfold lift at 1, json. rewrite Hr. cbv beta iota.
  unfold try_except. rewrite run_bind. unfold lift.
  rewrite (stock_record_without_opening_bar stock response meta series bar p
             stamp f Hm Hs Ht Hb Hp Ha Hf Hn).
  reflexivity.
Qed.

Lemma absent_opening_bar_zero_change_witness :
  AlphaVantage.stock_body alpha_self "IBM" [] (intraday_world "161.5000") =
  (Ok [{| symbol := "IBM"; price := "$161.50"; change_24h := "0.0%" |}],
   [HttpGet (AlphaVantage.intraday_request alpha_self "IBM")]).
Proof.
  exact (absent_opening_bar_zero_change alpha_self (intraday_world "161.5000")
           "IBM" "2024-01-02 16:00:00" (intraday_body "161.5000")
           (PDict [("2. Symbol", PStr "IBM");
                   ("3. Last Refreshed", PStr "2024-01-02 16:00:00")])
           (PDict [("2024-01-02 16:00:00",
                     PDict [("1. open", PStr "161.5000");
                            ("4. close", PStr "161.5000")])])
           (PDict [("1. open", PStr "161.5000"); ("4. close", PStr "161.5000")])
           (PStr "161.5000")
           (PyFloat.of_decimal false 1615000 (-4)) []
           eq_refl eq_refl eq_refl eq_refl eq_refl eq_refl eq_refl eq_refl
           eq_refl).
Defined.

(** C7 as stated fails: with the 9:30 bar absent and the opening price
    present, a price of zero raises [ZeroDivisionError] and no record is
    emitted, and a price text ["inf"] gives a record whose change is
    ["nan%"]. *)
Lemma absent_opening_bar_other_changes :
  Py.getitem (intraday_body "0.0000") "Time Series (30min)"
  = Ok (PDict [("2024-01-02 16:00:00",
                 PDict [("1. open", PStr "0.0000"); ("4. close", PStr "0.0000")])])
  /\ AlphaVantage.stock_body alpha_self "IBM" [] (intraday_world "0.0000") =
     (Raise (Exn ZeroDivisionError None),
      [HttpGet (AlphaVantage.intraday_request alpha_self "IBM")])
  /\ AlphaVantage.stock_body alpha_self "IBM" [] (intraday_world "inf") =
     (Ok [{| symbol := "IBM"; price := "$inf"; change_24h := "nan%" |}],
      [HttpGet (AlphaVantage.intraday_request alpha_self "IBM")])
  /\ ~ (forall open, exists r t,
          AlphaVantage.stock_body alpha_self "IBM" [] (intraday_world open)
          = (Ok [r], t) /\ change_24h r = "0.0%").
Proof.
  split; [reflexivity |]. split; [vm_compute; reflexivity |].
  split; [vm_compute; reflexivity |].
  intros H. destruct (H "0.0000") as (r & t & E & _).
  vm_compute in E. discriminate E.
Qed.

(** * Further properties of the adapters *)

(** ** Loops that append at most one record per turn *)

Lemma subseq_refl {A} (l : list A) : subseq l l.
Proof. induction l; constructor; assumption. Qed.

Lemma subseq_nil_l {A} (l : list A) : subseq [] l.
Proof. induction l; constructor; assumption. Qed.

Lemma subseq_app {A} (a1 a2 b1 b2 : list A) :
  subseq a1 b1 -> subseq a2 b2 -> subseq (a1 ++ a2) (b1 ++ b2).
Proof.
  induction 1; intros H2; cbn;
    [assumption | apply subseq_skip; auto | apply subseq_keep; auto].
Qed.

Lemma subseq_length {A} (l1 l2 : list A) :
  subseq l1 l2 -> (List.length l1 <= List.length l2)%nat.
Proof. induction 1; cbn; lia. Qed.

Lemma requests_of_app t1 t2 :
  requests_of (t1 ++ t2) = (requests_of t1 ++ requests_of t2)%list.
Proof. apply flat_map_app. Qed.

Lemma bind_ok {A B} (r : result A) (k : A -> result B) (b : B) :
  (x <- r ;; k x) = Ok b -> exists a, r = Ok a /\ k a = Ok b.
Proof. destruct r as [a | e]; [now exists a | discriminate]. Qed.

Section Loops.
Context {A : Type}.
Variable body : A -> list price_record -> M (list price_record).
Variable name : A -> string.
Variable sent : A -> list event.

(** A turn that ends normally has caused the events [sent x] and has
    either left the list alone or appended one record named after
    [x]. *)
Hypothesis turn : forall x pd w pd' t,
    body x pd w = (Ok pd', t) ->
    t = sent x
    /\ (pd' = pd
        \/ exists r, pd' = (pd ++ [r])%list /\ symbol r = name x).

Lemma for_each_turns (xs : list A) :
  forall pd w pd' t,
    for_each xs body pd w = (Ok pd', t) ->
    t = flat_map sent xs
    /\ exists added,
         pd' = (pd ++ added)%list
         /\ subseq (map symbol added) (map name xs).
Proof.
  induction xs as [| x xs IH]; intros pd w pd' t H.
  - cbn in H. inversion H; subst. split; [reflexivity |].
    exists []. split; [now rewrite app_nil_r | constructor].
  - cbn [for_each] in H. rewrite run_bind in H.
    destruct (body x pd w) as [[pd1 | e] t1] eqn:E1; [| discriminate H].
    destruct (for_each xs body pd1 w) as [r t2] eqn:E2.
    inversion H; subst. destruct (turn _ _ _ _ _ E1) as [-> Hpd].
    destruct (IH _ _ _ _ E2) as (-> & added & -> & Hsub).
    split; [reflexivity |].
    destruct Hpd as [-> | (r & -> & Hr)].
    + exists added. split; [reflexivity |]. cbn. now apply subseq_skip.
    + exists (r :: added). split; [now rewrite <- app_assoc |].
      cbn. rewrite Hr. now apply subseq_keep.
Qed.
End Loops.

(** ** The registry, once more *)

(** X1: whatever the name, [get_api_cls] either returns one of the
    three registered adapters, never [FinnHub], or raises the
    [RuntimeError]; the lookup of the class in the module never
    fails. *)
Theorem get_api_cls_never_finnhub (api_name : string) (w : world) :
  match fst (get_api_cls api_name w) with
  | Ok c => c <> FinnHub_cls
  | Raise e => exn_cls e = RuntimeError
  end.
Proof.
  unfold get_api_cls. cbn [assoc API_CLASS_MAP].
  destruct (String.eqb api_name "coinmarketcap"); [cbn; discriminate |].
  destruct (String.eqb api_name "coingecko"); [cbn; discriminate |].
  destruct (String.eqb api_name "alphavantage"); [cbn; discriminate |].
  reflexivity.
Qed.

(** ** Construction *)

(** X2: an adapter that was constructed has the class asked for,
    holds [symbols] and [stocks] as given, has currency ["usd"], and
    its key is the value of the credential variable, read once. *)
Theorem constructed_instance (cls : adapter) (symbols currency stocks : string)
    (w : world) (i : instance) (t : list event) :
  construct cls symbols currency stocks w = (Ok i, t) ->
  currency = "usd"
  /\ instance_class i = cls
  /\ instance_base i = {| PriceAPI.symbols := symbols;
                          PriceAPI.stocks := stocks;
                          PriceAPI.currency := "usd" |}
  /\ environ w (credential cls) = Some (instance_key i)
  /\ t = [EnvRead (credential cls)].
Proof.
  destruct cls; unfold construct;
    [ unfold CoinMarketCap.init, CoinMarketCap.supported_currencies
    | unfold CoinGecko.init, CoinGecko.supported_currencies
    | unfold FinnHub.init, FinnHub.supported_currencies
    | unfold AlphaVantage.init, AlphaVantage.supported_currencies ];
    rewrite run_bind, run_bind, init_base_usd;
    (destruct (String.eqb_spec currency "usd") as [-> | _];
     [| discriminate]);
    rewrite run_bind, read_key; cbn [credential];
    match goal with
    | |- context [environ w ?v] => destruct (environ w v) as [k |]
    end; cbn; intros H; inversion H; subst; repeat split.
Qed.

Lemma constructed_instance_witness :
  exists i,
    construct AlphaVantage_cls "BTC" "usd" "IBM" keyed_world
    = (Ok i, [EnvRead "ALPHA_VANTAGE_API_KEY"])
    /\ instance_class i = AlphaVantage_cls
    /\ instance_base i = {| PriceAPI.symbols := "BTC";
                            PriceAPI.stocks := "IBM";
                            PriceAPI.currency := "usd" |}
    /\ instance_key i = "demo".
Proof.
  eexists. split; [reflexivity |].
  destruct (constructed_instance AlphaVantage_cls "BTC" "usd" "IBM" keyed_world
              _ _ eq_refl) as (_ & Hc & Hb & Hk & _).
  split; [exact Hc | split; [exact Hb |]].
  cbn in Hk. now inversion Hk.
Defined.

(** ** CoinMarketCap *)

Lemma cmc_loop_trace items :
  forall pd w, snd (for_each items CoinMarketCap.loop_body pd w) = [].
Proof.
  induction items as [| [sym data] items IH]; intros pd w; [reflexivity |].
  cbn [for_each]. rewrite run_bind, run_cmc_loop_body.
  destruct (CoinMarketCap.entry_record sym data) as [r | e].
  - specialize (IH (pd ++ [r])%list w).
    destruct (for_each items CoinMarketCap.loop_body _ w). cbn in *. now subst.
  - destruct (exn_class_eqb (exn_cls e) KeyError); [| reflexivity].
    specialize (IH pd w).
    destruct (for_each items CoinMarketCap.loop_body _ w). cbn in *. now subst.
Qed.

(** The fetch, case by case on the body. *)
Lemma run_cmc_fetch_cases (s : CoinMarketCap.self) (w : world) :
  CoinMarketCap.fetch_price_data s w =
  match decoded (network w (CoinMarketCap.quotes_request s)) with
  | None =>
      (Ok None,
       [Log INFO (LogText "`fetch_price_data` called.");
        HttpGet (CoinMarketCap.quotes_request s);
        Log ERROR (LogText ("JSON decode error: "
                              ++ text (network w (CoinMarketCap.quotes_request s))))])
  | Some body =>
      (match (data <- Py.get body "data" (PDict []) ;; Py.items data) with
       | Ok items =>
           match fst (for_each items CoinMarketCap.loop_body [] w) with
           | Ok pd => Ok (Some pd)
           | Raise e => Raise e
           end
       | Raise e => Raise e
       end,
       [Log INFO (LogText "`fetch_price_data` called.");
        HttpGet (CoinMarketCap.quotes_request s)])
  end.
Proof.
  destruct (decoded (network w (CoinMarketCap.quotes_request s)))
    as [body |] eqn:Hb; [| now apply coinmarketcap_undecodable_body].
  destruct (Py.get body "data" (PDict [])) as [data | e] eqn:Hd.
  - cbn [bind result_monad].
    destruct (Py.items data) as [items | e] eqn:Hi.
    + pose proof (cmc_loop_trace items [] w) as Ht.
      destruct (for_each items CoinMarketCap.loop_body [] w) as [r t] eqn:Hl.
      cbn in Ht. subst t.
      now rewrite (run_cmc_fetch s w body data items r [] Hb Hd Hi Hl).
    + unfold CoinMarketCap.fetch_price_data.
      rewrite run_bind. unfold logger_info at 1. cbv beta iota.
      rewrite run_bind. unfold requests_get at 1. cbv beta iota.
      rewrite run_bind. unfold try_except, lift, json. rewrite Hb.
      cbn [bind result_monad]. rewrite Hd, Hi.
      destruct data; try discriminate Hi; inversion Hi; reflexivity.
  - cbn [bind result_monad].
    unfold CoinMarketCap.fetch_price_data.
    rewrite run_bind. unfold logger_info at 1. cbv beta iota.
    rewrite run_bind. unfold requests_get at 1. cbv beta iota.
    rewrite run_bind. unfold try_except, lift, json. rewrite Hb.
    cbn [bind result_monad]. rewrite Hd.
    unfold Py.get in Hd. destruct body; try discriminate Hd; cbn in Hd;
      inversion Hd; reflexivity.
Qed.

(** X3: a CoinMarketCap fetch sends exactly one request, whatever the
    provider answers and however the call ends: the quotes request
    with all the symbols in one parameter and the key in the header. *)
Theorem coinmarketcap_single_request (s : CoinMarketCap.self) (w : world) :
  requests_of (snd (CoinMarketCap.fetch_price_data s w))
  = [ {| url := "https://pro-api.coinmarketcap.com/v1/cryptocurrency/quotes/latest";
         params := [("symbol", PriceAPI.symbols (CoinMarketCap.base s))];
         headers := [("X-CMC_PRO_API_KEY", CoinMarketCap.api_key s)] |} ].
Proof.
  rewrite run_cmc_fetch_cases.
  destruct (decoded (network w (CoinMarketCap.quotes_request s)));
    reflexivity.
Qed.

(** X4: a JSON object without a ["data"] key gives the empty list,
    not [None]: the default [{}] of [.get] has no items. *)
Theorem coinmarketcap_without_data (s : CoinMarketCap.self) (w : world)
    (kv : list (string * pyval)) :
  decoded (network w (CoinMarketCap.quotes_request s)) = Some (PDict kv) ->
  assoc "data" kv = None ->
  CoinMarketCap.fetch_price_data s w =
  (Ok (Some []),
   [Log INFO (LogText "`fetch_price_data` called.");
    HttpGet (CoinMarketCap.quotes_request s)]).
Proof.
  intros Hb Hd. rewrite run_cmc_fetch_cases, Hb.
  cbn [Py.get Py.bound_get bind result_monad]. now rewrite Hd.
Qed.

Lemma coinmarketcap_without_data_witness :
  CoinMarketCap.fetch_price_data cmc_self status_only_world =
  (Ok (Some []),
   [Log INFO (LogText "`fetch_price_data` called.");
    HttpGet (CoinMarketCap.quotes_request cmc_self)]).
Proof.
  apply (coinmarketcap_without_data cmc_self status_only_world
           [("status", PDict [("error_code", PInt 1008);
                              ("error_message", PStr "limit")])]);
    reflexivity.
Defined.

(** X5: a body that is JSON but not an object, or whose ["data"] is
    not an object, is not recovered from: [.get] or [.items] raises
    [AttributeError], which [except json.JSONDecodeError] lets
    through. *)
Theorem coinmarketcap_body_not_object (s : CoinMarketCap.self) (w : world)
    (body : pyval) :
  decoded (network w (CoinMarketCap.quotes_request s)) = Some body ->
  is_object body = false
  \/ (exists kv data, body = PDict kv /\ assoc "data" kv = Some data
                      /\ is_object data = false) ->
  fst (CoinMarketCap.fetch_price_data s w) = Raise (Exn AttributeError None).
Proof.
  intros Hb H. rewrite run_cmc_fetch_cases, Hb. cbn [fst].
  destruct H as [H | (kv & data & -> & Hd & H)].
  - destruct body; try discriminate H; reflexivity.
  - cbn [Py.get Py.bound_get bind result_monad]. rewrite Hd.
    destruct data; try discriminate H; reflexivity.
Qed.

Lemma coinmarketcap_body_not_object_witness :
  fst (CoinMarketCap.fetch_price_data cmc_self list_world)
  = Raise (Exn AttributeError None)
  /\ fst (CoinMarketCap.fetch_price_data cmc_self null_data_world)
     = Raise (Exn AttributeError None).
Proof.
  split.
  - apply (coinmarketcap_body_not_object cmc_self list_world (PList []));
      [reflexivity | now left].
  - apply (coinmarketcap_body_not_object cmc_self null_data_world
             (PDict [("data", PNone)])); [reflexivity |].
    right. exists [("data", PNone)], PNone. repeat split.
Defined.

Lemma for_each_app {A S} (xs ys : list A) (body : A -> S -> M S) acc w acc1 t1 :
  for_each xs body acc w = (Ok acc1, t1) ->
  for_each (xs ++ ys) body acc w =
  (fst (for_each ys body acc1 w), (t1 ++ snd (for_each ys body acc1 w))%list).
Proof.
  revert acc t1. induction xs as [| x xs IH]; intros acc t1 H.
  - cbn in H. inversion H; subst. cbn. now destruct (for_each ys body acc1 w).
  - cbn [for_each app] in *. rewrite run_bind in *.
    destruct (body x acc w) as [[a | e] ta]; [| discriminate H].
    destruct (for_each xs body a w) as [r tb] eqn:E.
    inversion H; subst. rewrite (IH a tb E).
    cbn. now rewrite app_assoc.
Qed.

Lemma format_f_error grouped d p c :
  format_error p = Some c -> Py.format_f grouped d p = Raise (Exn c None).
Proof.
  destruct p as [| | n | | | |]; cbn; try discriminate;
    try (now intros [= <-]).
  unfold Py.float_of_int. destruct (PyFloat.of_int n); [discriminate |].
  now intros [= <-].
Qed.

Lemma format_error_not_key p c :
  format_error p = Some c -> exn_class_eqb c KeyError = false.
Proof.
  destruct p as [| | n | | | |]; cbn; try discriminate;
    try (now intros [= <-]).
  destruct (PyFloat.of_int n); [discriminate | now intros [= <-]].
Qed.

(** X6: a price that is present but cannot be printed as a number
    (JSON null, a text, a list, an object, an integer beyond the float
    range) is not a missing field: the exception of [format] (a
    [TypeError], [ValueError] or [OverflowError]) escapes the
    [except KeyError] and aborts the whole fetch, the records of the
    entries before it included. *)
Theorem coinmarketcap_unprintable_price_aborts (s : CoinMarketCap.self)
    (w : world) (body : pyval) (pre post : list (string * pyval))
    (sym : string) (data quote usd p : pyval) (c : exn_class) :
  decoded (network w (CoinMarketCap.quotes_request s)) = Some body ->
  Py.get body "data" (PDict []) = Ok (PDict (pre ++ (sym, data) :: post)) ->
  Forall (fun item => classify (snd item) <> None) pre ->
  Py.getitem data "quote" = Ok quote ->
  Py.getitem quote "USD" = Ok usd ->
  Py.getitem usd "price" = Ok p ->
  format_error p = Some c ->
  fst (CoinMarketCap.fetch_price_data s w) = Raise (Exn c None).
Proof.
  intros Hb Hd Hpre Hq Hu Hp Hc.
  rewrite run_cmc_fetch_cases, Hb, Hd. cbn [fst bind result_monad Py.items].
  rewrite (for_each_app pre ((sym, data) :: post) _ [] w _ []
             (cmc_loop_classified pre Hpre [] w)).
  cbn [fst for_each]. rewrite run_bind, run_cmc_loop_body.
  unfold CoinMarketCap.entry_record. cbn [bind result_monad].
  rewrite Hq, Hu, Hp, (format_f_error true 2 p c Hc).
  cbn [exn_cls]. now rewrite (format_error_not_key p c Hc).
Qed.

Lemma coinmarketcap_unprintable_price_aborts_witness :
  fst (CoinMarketCap.fetch_price_data cmc_self (cmc_world null_price_items))
  = Raise (Exn TypeError None).
Proof.
  apply (coinmarketcap_unprintable_price_aborts cmc_self
           (cmc_world null_price_items)
           (PDict [("status", PDict []); ("data", PDict null_price_items)])
           [("BTC", usd_quote btc_fields)] [("ETH", usd_quote eth_fields)]
           "XYZ"
           (usd_quote [("price", PNone);
                       ("percent_change_24h",
                        PFloat (PyFloat.of_decimal false 15 (-1)))])
           (PDict [("USD", PDict [("price", PNone);
                                  ("percent_change_24h",
                                   PFloat (PyFloat.of_decimal false 15 (-1)))])])
           (PDict [("price", PNone);
                   ("percent_change_24h",
                    PFloat (PyFloat.of_decimal false 15 (-1)))])
           PNone TypeError); try reflexivity.
  repeat constructor. discriminate.
Defined.

Lemma entry_record_symbol sym data r :
  CoinMarketCap.entry_record sym data = Ok r -> symbol r = sym.
Proof.
  unfold CoinMarketCap.entry_record. intros H.
  repeat (apply bind_ok in H as (? & _ & H)).
  now inversion H.
Qed.

Lemma cmc_loop_turn (x : string * pyval) pd w pd' t :
  CoinMarketCap.loop_body x pd w = (Ok pd', t) ->
  t = []
  /\ (pd' = pd \/ exists r, pd' = (pd ++ [r])%list /\ symbol r = fst x).
Proof.
  destruct x as [sym data]. rewrite run_cmc_loop_body.
  destruct (CoinMarketCap.entry_record sym data) as [r | e] eqn:E.
  - intros [= <- <-]. split; [reflexivity | right].
    exists r. split; [reflexivity | now apply entry_record_symbol in E].
  - destruct (exn_class_eqb (exn_cls e) KeyError); [| discriminate].
    intros [= <- <-]. now split; [| left].
Qed.

(** X7: whenever a CoinMarketCap fetch returns a list, the symbols of
    its records are symbols of the [data] mapping, in the order of the
    mapping and at most once per entry: no record is made up, none is
    reordered. *)
Theorem coinmarketcap_symbols_from_data (s : CoinMarketCap.self) (w : world)
    (body : pyval) (items : list (string * pyval)) (pd : list price_record) :
  decoded (network w (CoinMarketCap.quotes_request s)) = Some body ->
  Py.get body "data" (PDict []) = Ok (PDict items) ->
  fst (CoinMarketCap.fetch_price_data s w) = Ok (Some pd) ->
  subseq (map symbol pd) (map fst items)
  /\ (List.length pd <= List.length items)%nat.
Proof.
  intros Hb Hd. rewrite run_cmc_fetch_cases, Hb, Hd.
  cbn [fst bind result_monad Py.items].
  destruct (for_each items CoinMarketCap.loop_body [] w) as [[pd' | e] t] eqn:E;
    cbn [fst]; [| discriminate].
  intros [= <-].
  destruct (for_each_turns CoinMarketCap.loop_body fst (fun _ => [])
              cmc_loop_turn items [] w pd' t E) as (_ & added & -> & Hsub).
  cbn [app] in *. split; [exact Hsub |].
  apply subseq_length in Hsub. now rewrite !length_map in Hsub.
Qed.

Lemma coinmarketcap_symbols_from_data_witness :
  subseq (map symbol [{| symbol := "BTC"; price := "$43,250.50";
                         change_24h := "-1.2%" |}])
    ["BTC"; "ETH"]
  /\ (1 <= 2)%nat.
Proof.
  apply (coinmarketcap_symbols_from_data cmc_self
           (cmc_world [("BTC", usd_quote btc_fields);
                       ("ETH", usd_quote [("price", PInt 2301)])])
           (PDict [("status", PDict []);
                   ("data", PDict [("BTC", usd_quote btc_fields);
                                   ("ETH", usd_quote [("price", PInt 2301)])])])
           [("BTC", usd_quote btc_fields);
            ("ETH", usd_quote [("price", PInt 2301)])]);
    reflexivity.
Defined.

(** ** The stock loop of FinnHub and CoinGecko *)

Lemma stock_record_symbol stock response r :
  Quote.stock_record stock response = Ok r -> symbol r = stock.
Proof.
  unfold Quote.stock_record. intros H.
  repeat (apply bind_ok in H as (? & _ & H)).
  now inversion H.
Qed.

Lemma quote_loop_turn api key (x : string) pd w pd' t :
  Quote.loop_body api key x pd w = (Ok pd', t) ->
  t = [HttpGet (Quote.quote_request api x key)]
  /\ (pd' = pd \/ exists r, pd' = (pd ++ [r])%list /\ symbol r = x).
Proof.
  rewrite run_quote_loop_body.
  destruct (json (network w (Quote.quote_request api x key))) as [v | e];
    [| discriminate].
  destruct (Quote.stock_record x v) as [r | e] eqn:E.
  - intros [= <- <-]. split; [reflexivity | right].
    exists r. split; [reflexivity | now apply stock_record_symbol in E].
  - destruct (exn_class_eqb (exn_cls e) KeyError); [| discriminate].
    intros [= <- <-]. now split; [| left].
Qed.

Lemma split_comma_length (s : string) :
  List.length (Py.split_comma s) = S (count_commas s).
Proof.
  induction s as [| c s IH]; [reflexivity |]. cbn.
  destruct (Ascii.eqb c ","); [cbn; now rewrite IH |].
  destruct (Py.split_comma s); [discriminate IH | exact IH].
Qed.

Lemma requests_of_log l m t : requests_of (Log l m :: t) = requests_of t.
Proof. reflexivity. Qed.

Lemma requests_of_gets {A} (f : A -> request) (xs : list A) :
  requests_of (flat_map (fun x => [HttpGet (f x)]) xs) = map f xs.
Proof.
  induction xs as [| x xs IH]; [reflexivity |].
  cbn [flat_map map]. now rewrite requests_of_app, IH.
Qed.

(** X8: a FinnHub fetch that returns has sent one quote request per
    ticker of [stocks.split(',')], in order, each with the ticker and
    the key; that is one more than [stocks] has commas, so at least
    one even for the empty text.  The symbols of its records are
    tickers of the list, in order, at most one record per ticker. *)
Theorem finnhub_one_request_per_ticker (s : FinnHub.self) (w : world)
    (pd : list price_record) (t : list event) :
  FinnHub.fetch_price_data s w = (Ok (Some pd), t) ->
  requests_of t
  = map (fun stock =>
           {| url := "https://finnhub.io/api/v1//quote";
              params := [("symbol", stock); ("token", FinnHub.api_key s)];
              headers := [] |})
      (Py.split_comma (PriceAPI.stocks (FinnHub.base s)))
  /\ List.length (requests_of t)
     = S (count_commas (PriceAPI.stocks (FinnHub.base s)))
  /\ subseq (map symbol pd) (Py.split_comma (PriceAPI.stocks (FinnHub.base s))).
Proof.
  destruct (for_each (Py.split_comma (PriceAPI.stocks (FinnHub.base s)))
              (Quote.loop_body FinnHub.API (FinnHub.api_key s)) [] w)
    as [[pd' | e] t'] eqn:E;
    rewrite (run_finnhub_fetch s w _ _ E); [| discriminate].
  intros [= <- <-].
  destruct (for_each_turns _ (fun x : string => x)
              (fun x => [HttpGet (Quote.quote_request FinnHub.API x
                                    (FinnHub.api_key s))])
              (quote_loop_turn FinnHub.API (FinnHub.api_key s))
              _ _ _ _ _ E) as (-> & added & -> & Hsub).
  rewrite map_id in Hsub. rewrite requests_of_log.
  rewrite (requests_of_gets (fun x => Quote.quote_request FinnHub.API x
                                        (FinnHub.api_key s))).
  repeat split.
  - now rewrite length_map, split_comma_length.
  - exact Hsub.
Qed.

Lemma finnhub_one_request_per_ticker_witness :
  exists t,
    FinnHub.fetch_price_data (finnhub_self "AAPL,,MSFT") aapl_only_world
    = (Ok (Some [{| symbol := "AAPL"; price := "$110.00";
                    change_24h := "10.0%" |}]), t)
    /\ requests_of t
       = [finnhub_quote_request "AAPL" "token";
          finnhub_quote_request "" "token";
          finnhub_quote_request "MSFT" "token"]
    /\ List.length (requests_of t) = 3%nat
    /\ subseq ["AAPL"] ["AAPL"; ""; "MSFT"].
Proof.
  exists (snd (FinnHub.fetch_price_data (finnhub_self "AAPL,,MSFT")
                 aapl_only_world)).
  split; [reflexivity |].
  exact (finnhub_one_request_per_ticker (finnhub_self "AAPL,,MSFT")
           aapl_only_world
           [{| symbol := "AAPL"; price := "$110.00"; change_24h := "10.0%" |}]
           _ eq_refl).
Defined.

Lemma stock_record_without_price stock kv :
  assoc "c" kv = None \/ assoc "o" kv = None ->
  exists e, Quote.stock_record stock (PDict kv) = Raise e
            /\ exn_cls e = KeyError.
Proof.
  intros H. unfold Quote.stock_record. cbn [Py.getitem bind result_monad].
  destruct (assoc "c" kv) as [c |]; [| now eexists].
  destruct H as [H | H]; [discriminate H |]. rewrite H. now eexists.
Qed.

(** X9: when the answer for every ticker is a JSON object that lacks
    ["c"] or lacks ["o"] (an error object, say), the FinnHub fetch
    returns the empty list: each ticker is skipped, none stops the
    loop. *)
Theorem finnhub_quotes_without_prices (s : FinnHub.self) (w : world) :
  (forall stock,
     In stock (Py.split_comma (PriceAPI.stocks (FinnHub.base s))) ->
     exists kv,
       decoded (network w (Quote.quote_request FinnHub.API stock
                             (FinnHub.api_key s))) = Some (PDict kv)
       /\ (assoc "c" kv = None \/ assoc "o" kv = None)) ->
  fst (FinnHub.fetch_price_data s w) = Ok (Some []).
Proof.
  intros H.
  assert (L : forall xs pd,
             (forall x, In x xs ->
                In x (Py.split_comma (PriceAPI.stocks (FinnHub.base s)))) ->
             fst (for_each xs
                    (Quote.loop_body FinnHub.API (FinnHub.api_key s)) pd w)
             = Ok pd).
  { induction xs as [| x xs IH]; intros pd Hin; [reflexivity |].
    cbn [for_each]. rewrite run_bind, run_quote_loop_body.
    destruct (H x (Hin x (or_introl eq_refl))) as (kv & Hd & Hk).
    unfold json. rewrite Hd.
    destruct (stock_record_without_price x kv Hk) as (e & -> & ->).
    cbn [exn_class_eqb]. cbv beta iota.
    specialize (IH pd (fun y Hy => Hin y (or_intror Hy))).
    destruct (for_each xs _ pd w). exact IH. }
  specialize (L _ [] (fun x Hx => Hx)).
  destruct (for_each (Py.split_comma (PriceAPI.stocks (FinnHub.base s)))
              (Quote.loop_body FinnHub.API (FinnHub.api_key s)) [] w)
    as [r t] eqn:E.
  rewrite (run_finnhub_fetch s w r t E). cbn in *. now subst.
Qed.

Lemma finnhub_quotes_without_prices_witness :
  fst (FinnHub.fetch_price_data (finnhub_self "AAPL,MSFT") error_world)
  = Ok (Some []).
Proof.
  apply (finnhub_quotes_without_prices (finnhub_self "AAPL,MSFT") error_world).
  intros stock _. exists [("error", PStr "API limit reached.")].
  split; [reflexivity | now left].
Defined.

Lemma truediv_self (c : pyval) :
  is_number c = true ->
  PyFloat.is_finite_nonzero (number_value c) = true ->
  Py.truediv c c = Ok one.
Proof.
  destruct c as [| | n | f | | |]; try discriminate; cbn [is_number number_value].
  - intros Hn Hf. unfold Py.truediv.
    destruct n as [| p | p];
      [vm_compute in Hf; discriminate Hf | |];
      cbn [Z.eqb Py.exact_int]; now rewrite div_self.
  - intros _ Hf. destruct f as [| | | s m e]; try discriminate.
    unfold Py.truediv. cbn [PyFloat.is_zero]. now rewrite div_self.
Qed.

(** X10: a quote whose current price equals its open (a finite,
    non-zero number) gives the ticker a record with change
    ["0.0%"]: the quotient is exactly [1.0]. *)
Theorem quote_equal_prices_zero_change (api key stock : string) (w : world)
    (quote c : pyval) (price_data : list price_record) :
  decoded (network w (Quote.quote_request api stock key)) = Some quote ->
  Py.getitem quote "c" = Ok c ->
  Py.getitem quote "o" = Ok c ->
  is_number c = true ->
  PyFloat.is_finite_nonzero (number_value c) = true ->
  Quote.loop_body api key stock price_data w =
  (Ok (price_data ++ [{| symbol := stock;
                         price := "$" ++ Fmt.fixed true 2 (number_value c);
                         change_24h := "0.0%" |}])%list,
   [HttpGet (Quote.quote_request api stock key)]).
Proof.
  intros Hd Hc Ho Hn Hf. rewrite run_quote_loop_body. unfold json. rewrite Hd.
  unfold Quote.stock_record. cbn [bind result_monad].
  rewrite Hc, Ho, (truediv_self c Hn Hf), percent_change_one,
    (format_number true 2 c Hn).
  reflexivity.
Qed.

Lemma quote_equal_prices_zero_change_witness :
  Quote.loop_body FinnHub.API "token" "AAPL" [] flat_quote_world =
  (Ok [{| symbol := "AAPL"; price := "$187.50"; change_24h := "0.0%" |}],
   [HttpGet (finnhub_quote_request "AAPL" "token")]).
Proof.
  exact (quote_equal_prices_zero_change FinnHub.API "token" "AAPL"
           flat_quote_world
           (PDict [("c", PFloat (PyFloat.of_decimal false 1875 (-1)));
                   ("o", PFloat (PyFloat.of_decimal false 1875 (-1)))])
           (PFloat (PyFloat.of_decimal false 1875 (-1))) []
           eq_refl eq_refl eq_refl eq_refl eq_refl).
Defined.

(** ** CoinGecko *)

Lemma coin_loop_trace (s : CoinGecko.self) items :
  forall pd w, snd (for_each items (CoinGecko.coin_body s) pd w) = [].
Proof.
  induction items as [| [k d] items IH]; intros pd w; [reflexivity |].
  cbn [for_each]. rewrite run_bind, run_coin_body.
  destruct (CoinGecko.coin_strings d) as [[p c] | e].
  - destruct (assoc k (CoinGecko.symbol_map s)) as [x |]; [| reflexivity].
    specialize (IH (pd ++ [{| symbol := x; price := p; change_24h := c |}])%list w).
    destruct (for_each items (CoinGecko.coin_body s) _ w). cbn in *. now subst.
  - destruct (exn_class_eqb (exn_cls e) KeyError); [| reflexivity].
    specialize (IH pd w).
    destruct (for_each items (CoinGecko.coin_body s) _ w). cbn in *. now subst.
Qed.

(** The fetch, case by case. *)
Lemma run_coingecko_fetch_cases (s : CoinGecko.self) (w : world) :
  fst (CoinGecko.fetch_price_data s w) =
  match json (network w (CoinGecko.price_request s)) with
  | Raise e => Raise e
  | Ok cg =>
      match Py.items cg with
      | Raise e => Raise e
      | Ok items =>
          match fst (for_each items (CoinGecko.coin_body s) [] w) with
          | Raise e => Raise e
          | Ok pd1 =>
              match fst (for_each
                           (Py.split_comma (PriceAPI.stocks (CoinGecko.base s)))
                           (Quote.loop_body CoinGecko.FH_API (CoinGecko.api_key s))
                           pd1 w) with
              | Ok pd2 => Ok (Some pd2)
              | Raise e => Raise e
              end
          end
      end
  end.
Proof.
  destruct (json (network w (CoinGecko.price_request s))) as [cg | e] eqn:Hj.
  - destruct (Py.items cg) as [items | e] eqn:Hi.
    + destruct (for_each items (CoinGecko.coin_body s) [] w)
        as [[pd1 | e] t1] eqn:H1.
      * cbn [fst].
        destruct (for_each (Py.split_comma (PriceAPI.stocks (CoinGecko.base s)))
                    (Quote.loop_body CoinGecko.FH_API (CoinGecko.api_key s))
                    pd1 w) as [r2 t2] eqn:H2.
        rewrite (run_coingecko_fetch s w cg items pd1 t1 r2 t2 Hj Hi H1 H2).
        now destruct r2.
      * unfold CoinGecko.fetch_price_data.
        rewrite run_bind. unfold logger_info at 1. cbv beta iota.
        rewrite run_bind. unfold logger_info at 1. cbv beta iota.
        rewrite run_bind. unfold requests_get at 1. cbv beta iota.
        rewrite run_bind. unfold lift at 1. rewrite Hj. cbv beta iota.
        rewrite run_bind. unfold lift at 1. rewrite Hi. cbv beta iota.
        now rewrite run_bind, H1.
    + unfold CoinGecko.fetch_price_data.
      rewrite run_bind. unfold logger_info at 1. cbv beta iota.
      rewrite run_bind. unfold logger_info at 1. cbv beta iota.
      rewrite run_bind. unfold requests_get at 1. cbv beta iota.
      rewrite run_bind. unfold lift at 1. rewrite Hj. cbv beta iota.
      rewrite run_bind. unfold lift at 1. now rewrite Hi.
  - unfold CoinGecko.fetch_price_data.
    rewrite run_bind. unfold logger_info at 1. cbv beta iota.
    rewrite run_bind. unfold logger_info at 1. cbv beta iota.
    rewrite run_bind. unfold requests_get at 1. cbv beta iota.
    rewrite run_bind. unfold lift at 1. now rewrite Hj.
Qed.

(** X11: a coin of the response that has both prices but whose id is
    not in the symbol table stops the fetch: the table lookup is
    outside the [try], so its [KeyError] is not a skip.  The same coin
    without a ["usd"] price is skipped like any incomplete entry. *)
Theorem coingecko_stray_coin (s : CoinGecko.self) (w : world) (cg : pyval)
    (pre post : list (string * pyval)) (coin_id : string)
    (kv : list (string * pyval)) (pd : list price_record) :
  json (network w (CoinGecko.price_request s)) = Ok cg ->
  Py.items cg = Ok (pre ++ (coin_id, PDict kv) :: post)%list ->
  fst (for_each pre (CoinGecko.coin_body s) [] w) = Ok pd ->
  assoc coin_id (CoinGecko.symbol_map s) = None ->
  (forall p c, assoc "usd" kv = Some p -> is_number p = true ->
               assoc "usd_24h_change" kv = Some c -> is_number c = true ->
               fst (CoinGecko.fetch_price_data s w) = Raise (Exn KeyError None))
  /\ (assoc "usd" kv = None ->
      fst (for_each (pre ++ [(coin_id, PDict kv)])%list (CoinGecko.coin_body s) [] w)
      = Ok pd).
Proof.
  intros Hj Hi Hpre Hid.
  pose proof (coin_loop_trace s pre [] w) as Ht.
  destruct (for_each pre (CoinGecko.coin_body s) [] w) as [r t] eqn:E.
  cbn in Hpre, Ht. subst r t. split.
  - intros p c Hp Np Hc Nc.
    rewrite run_coingecko_fetch_cases, Hj, Hi.
    rewrite (for_each_app pre _ _ [] w pd [] E). cbn [fst for_each].
    rewrite run_bind, run_coin_body. unfold CoinGecko.coin_strings.
    cbn [Py.getitem bind result_monad].
    rewrite Hp, (format_number true 2 p Np), Hc, (format_number false 1 c Nc).
    cbn [ret result_monad]. now rewrite Hid.
  - intros Hp. rewrite (for_each_app pre _ _ [] w pd [] E).
    cbn [fst for_each]. rewrite run_bind, run_coin_body.
    unfold CoinGecko.coin_strings. cbn [Py.getitem bind result_monad].
    now rewrite Hp.
Qed.

Lemma coingecko_stray_coin_witness :
  fst (CoinGecko.fetch_price_data (coingecko_self "AAPL") stray_coin_world)
  = Raise (Exn KeyError None).
Proof.
  apply (proj1 (coingecko_stray_coin (coingecko_self "AAPL") stray_coin_world
                  (PDict [("dogecoin", doge_data)]) [] [] "dogecoin"
                  [("usd", PFloat (PyFloat.of_decimal false 84 (-3)));
                   ("usd_24h_change", PFloat (PyFloat.of_decimal false 31 (-1)))]
                  [] eq_refl eq_refl eq_refl eq_refl)
           (PFloat (PyFloat.of_decimal false 84 (-3)))
           (PFloat (PyFloat.of_decimal false 31 (-1))));
    reflexivity.
Defined.

(** X12: whenever the blended fetch returns, its list is the coin
    records, whose symbols are values of the symbol table, followed by
    the stock records, whose symbols are tickers of
    [stocks.split(',')] in order; it has sent the simple-price request
    first and then one quote request per ticker. *)
Theorem coingecko_coins_then_stocks (s : CoinGecko.self) (w : world)
    (pd : list price_record) (t : list event) :
  CoinGecko.fetch_price_data s w = (Ok (Some pd), t) ->
  exists coins quotes,
    pd = (coins ++ quotes)%list
    /\ Forall (fun r => In (symbol r) (map snd (CoinGecko.symbol_map s))) coins
    /\ subseq (map symbol quotes)
         (Py.split_comma (PriceAPI.stocks (CoinGecko.base s)))
    /\ requests_of t
       = CoinGecko.price_request s
           :: map (fun stock =>
                     Quote.quote_request CoinGecko.FH_API stock
                       (CoinGecko.api_key s))
                (Py.split_comma (PriceAPI.stocks (CoinGecko.base s))).
Proof.
  intros H. pose proof (f_equal fst H) as Hf. cbn [fst] in Hf.
  rewrite run_coingecko_fetch_cases in Hf.
  destruct (json (network w (CoinGecko.price_request s))) as [cg | e] eqn:Hj;
    [| discriminate Hf].
  destruct (Py.items cg) as [items | e] eqn:Hi; [| discriminate Hf].
  pose proof (coin_loop_trace s items [] w) as Ht.
  destruct (for_each items (CoinGecko.coin_body s) [] w)
    as [[pd1 | e] t1] eqn:H1; [| discriminate Hf].
  cbn in Ht. subst t1. cbn [fst] in Hf.
  destruct (for_each (Py.split_comma (PriceAPI.stocks (CoinGecko.base s)))
              (Quote.loop_body CoinGecko.FH_API (CoinGecko.api_key s)) pd1 w)
    as [[pd2 | e] t2] eqn:H2; [| discriminate Hf].
  rewrite (run_coingecko_fetch s w cg items pd1 [] _ t2 Hj Hi H1 H2) in H.
  inversion H; subst.
  destruct (for_each_turns _ (fun x : string => x)
              (fun x => [HttpGet (Quote.quote_request CoinGecko.FH_API x
                                    (CoinGecko.api_key s))])
              (quote_loop_turn CoinGecko.FH_API (CoinGecko.api_key s))
              _ _ _ _ _ H2) as (-> & added & -> & Hsub).
  rewrite map_id in Hsub. exists pd1, added. repeat split.
  - eapply (coin_loop_symbols s); [| constructor | exact H1].
    intros k x p c Hk. cbn [symbol]. clear - Hk.
    induction (CoinGecko.symbol_map s) as [| [k' v] m IH]; [discriminate |].
    cbn in Hk |- *. destruct (String.eqb k k'); [inversion Hk; now left |].
    right. now apply IH.
  - exact Hsub.
  - cbn [app]. rewrite !requests_of_log. cbn [requests_of flat_map app].
    f_equal. fold (requests_of). rewrite requests_of_app.
    rewrite (requests_of_gets (fun x => Quote.quote_request CoinGecko.FH_API x
                                          (CoinGecko.api_key s))).
    cbn. now rewrite app_nil_r.
Qed.

Lemma coingecko_coins_then_stocks_witness :
  exists coins quotes,
    [ {| symbol := "BTC"; price := "$50,000.12"; change_24h := "2.3%" |};
      {| symbol := "AAPL"; price := "$110.00"; change_24h := "10.0%" |} ]
    = (coins ++ quotes)%list
    /\ Forall (fun r => In (symbol r) ["BTC"; "ETH"]) coins
    /\ subseq (map symbol quotes) ["AAPL"]
    /\ requests_of (snd (CoinGecko.fetch_price_data (coingecko_self "AAPL")
                           scenario_world))
       = [simple_price_request "usd"; finnhub_quote_request "AAPL" "token"].
Proof.
  exact (coingecko_coins_then_stocks (coingecko_self "AAPL") scenario_world
           _ _ eq_refl).
Defined.

(** ** AlphaVantage *)

Lemma run_av_stock_body (s : AlphaVantage.self) stock pd w :
  AlphaVantage.stock_body s stock pd w =
  (match json (network w (AlphaVantage.intraday_request s stock)) with
   | Ok response =>
       match AlphaVantage.stock_record stock response with
       | Ok r => Ok (pd ++ [r])%list
       | Raise e => if exn_class_eqb (exn_cls e) KeyError then Ok pd else Raise e
       end
   | Raise e => Raise e
   end, [HttpGet (AlphaVantage.intraday_request s stock)]).
Proof.
  unfold AlphaVantage.stock_body. rewrite run_bind. unfold requests_get.
  rewrite run_bind. unfold lift, try_except.
  destruct (json (network w (AlphaVantage.intraday_request s stock)))
    as [v | e]; [| reflexivity].
  cbv beta iota. rewrite run_bind.
  destruct (AlphaVantage.stock_record stock v) as [r | e]; [reflexivity |].
  cbv beta iota. destruct (exn_class_eqb (exn_cls e) KeyError); reflexivity.
Qed.

Lemma run_av_crypto_body (s : AlphaVantage.self) sym pd w :
  AlphaVantage.crypto_body s sym pd w =
  match json (network w (AlphaVantage.rate_request s sym)) with
  | Raise e => (Raise e, [HttpGet (AlphaVantage.rate_request s sym)])
  | Ok current =>
      (match json (network w (AlphaVantage.daily_request s sym)) with
       | Ok daily =>
           match AlphaVantage.crypto_record sym current daily with
           | Ok r => Ok (pd ++ [r])%list
           | Raise e =>
               if exn_class_eqb (exn_cls e) KeyError then Ok pd else Raise e
           end
       | Raise e => Raise e
       end,
       [HttpGet (AlphaVantage.rate_request s sym);
        HttpGet (AlphaVantage.daily_request s sym)])
  end.
Proof.
  unfold AlphaVantage.crypto_body. rewrite run_bind. unfold requests_get at 1.
  cbv beta iota. rewrite run_bind. unfold lift at 1.
  destruct (json (network w (AlphaVantage.rate_request s sym)))
    as [c | e]; [| reflexivity].
  cbv beta iota. rewrite run_bind. unfold requests_get at 1.
  cbv beta iota. rewrite run_bind. unfold lift at 1.
  destruct (json (network w (AlphaVantage.daily_request s sym)))
    as [d | e]; [| reflexivity].
  cbv beta iota. unfold try_except. rewrite run_bind. unfold lift.
  destruct (AlphaVantage.crypto_record sym c d) as [r | e]; [reflexivity |].
  cbv beta iota. destruct (exn_class_eqb (exn_cls e) KeyError); reflexivity.
Qed.

Lemma make_record_symbol name p o r :
  AlphaVantage.make_record name p o = Ok r -> symbol r = name.
Proof.
  unfold AlphaVantage.make_record. intros H.
  repeat (apply bind_ok in H as (? & _ & H)).
  now inversion H.
Qed.

Lemma av_stock_record_symbol stock response r :
  AlphaVantage.stock_record stock response = Ok r -> symbol r = stock.
Proof.
  unfold AlphaVantage.stock_record. intros H.
  repeat (apply bind_ok in H as (? & _ & H)).
  first [now apply make_record_symbol in H | now inversion H].
Qed.

Lemma av_crypto_record_symbol sym current daily r :
  AlphaVantage.crypto_record sym current daily = Ok r -> symbol r = sym.
Proof.
  unfold AlphaVantage.crypto_record. intros H.
  repeat (apply bind_ok in H as (? & _ & H)).
  first [now apply make_record_symbol in H | now inversion H].
Qed.

Lemma av_stock_turn (s : AlphaVantage.self) (x : string) pd w pd' t :
  AlphaVantage.stock_body s x pd w = (Ok pd', t) ->
  t = [HttpGet (AlphaVantage.intraday_request s x)]
  /\ (pd' = pd \/ exists r, pd' = (pd ++ [r])%list /\ symbol r = x).
Proof.
  rewrite run_av_stock_body.
  destruct (json (network w (AlphaVantage.intraday_request s x))) as [v | e];
    [| discriminate].
  destruct (AlphaVantage.stock_record x v) as [r | e] eqn:E.
  - intros [= <- <-]. split; [reflexivity | right].
    exists r. split; [reflexivity | now apply av_stock_record_symbol in E].
  - destruct (exn_class_eqb (exn_cls e) KeyError); [| discriminate].
    intros [= <- <-]. now split; [| left].
Qed.

Lemma av_crypto_turn (s : AlphaVantage.self) (x : string) pd w pd' t :
  AlphaVantage.crypto_body s x pd w = (Ok pd', t) ->
  t = [HttpGet (AlphaVantage.rate_request s x);
       HttpGet (AlphaVantage.daily_request s x)]
  /\ (pd' = pd \/ exists r, pd' = (pd ++ [r])%list /\ symbol r = x).
Proof.
  rewrite run_av_crypto_body.
  destruct (json (network w (AlphaVantage.rate_request s x))) as [c | e];
    [| discriminate].
  destruct (json (network w (AlphaVantage.daily_request s x))) as [d | e];
    [| discriminate].
  destruct (AlphaVantage.crypto_record x c d) as [r | e] eqn:E.
  - intros [= <- <-]. split; [reflexivity | right].
    exists r. split; [reflexivity | now apply av_crypto_record_symbol in E].
  - destruct (exn_class_eqb (exn_cls e) KeyError); [| discriminate].
    intros [= <- <-]. now split; [| left].
Qed.

Lemma run_av_fetch (s : AlphaVantage.self) w pd1 t1 r2 t2 :
  for_each (Py.split_comma (PriceAPI.stocks (AlphaVantage.base s)))
    (AlphaVantage.stock_body s) [] w = (Ok pd1, t1) ->
  for_each (Py.split_comma (PriceAPI.symbols (AlphaVantage.base s)))
    (AlphaVantage.crypto_body s) pd1 w = (r2, t2) ->
  AlphaVantage.fetch_price_data s w =
  (match r2 with
   | Ok pd2 => Ok (Some pd2)
   | Raise e => Raise e
   end,
   Log INFO (LogText "`fetch_price_data` called.") :: t1 ++ t2)%list.
Proof.
  intros H1 H2. unfold AlphaVantage.fetch_price_data.
  rewrite run_bind. unfold logger_info at 1. cbv beta iota.
  rewrite run_bind, H1. cbv beta iota. rewrite run_bind, H2.
  destruct r2 as [pd2 | e]; cbn [ret M_monad app]; [| reflexivity].
  now rewrite app_nil_r.
Qed.

Lemma requests_of_pairs {A} (f g : A -> request) (xs : list A) :
  requests_of (flat_map (fun x => [HttpGet (f x); HttpGet (g x)]) xs)
  = flat_map (fun x => [f x; g x]) xs.
Proof.
  induction xs as [| x xs IH]; [reflexivity |].
  cbn [flat_map]. now rewrite requests_of_app, IH.
Qed.

(** X13: whenever the AlphaVantage fetch returns, its list is the
    stock records, whose symbols are tickers of [stocks.split(',')],
    followed by the currency records, whose symbols are entries of
    [symbols.split(',')], each in order; it has sent one intraday
    request per ticker and then, per symbol, the exchange-rate request
    followed by the daily request. *)
Theorem alphavantage_stocks_then_symbols (s : AlphaVantage.self) (w : world)
    (pd : list price_record) (t : list event) :
  AlphaVantage.fetch_price_data s w = (Ok (Some pd), t) ->
  exists quotes coins,
    pd = (quotes ++ coins)%list
    /\ subseq (map symbol quotes)
         (Py.split_comma (PriceAPI.stocks (AlphaVantage.base s)))
    /\ subseq (map symbol coins)
         (Py.split_comma (PriceAPI.symbols (AlphaVantage.base s)))
    /\ requests_of t
       = (map (AlphaVantage.intraday_request s)
            (Py.split_comma (PriceAPI.stocks (AlphaVantage.base s)))
          ++ flat_map (fun sym => [AlphaVantage.rate_request s sym;
                                   AlphaVantage.daily_request s sym])
               (Py.split_comma (PriceAPI.symbols (AlphaVantage.base s))))%list.
Proof.
  intros H.
  destruct (for_each (Py.split_comma (PriceAPI.stocks (AlphaVantage.base s)))
              (AlphaVantage.stock_body s) [] w) as [[pd1 | e] t1] eqn:H1.
  - destruct (for_each (Py.split_comma (PriceAPI.symbols (AlphaVantage.base s)))
                (AlphaVantage.crypto_body s) pd1 w) as [[pd2 | e] t2] eqn:H2;
      rewrite (run_av_fetch s w pd1 t1 _ t2 H1 H2) in H; [| discriminate H].
    inversion H; subst.
    destruct (for_each_turns _ (fun x : string => x)
                (fun x => [HttpGet (AlphaVantage.intraday_request s x)])
                (av_stock_turn s) _ _ _ _ _ H1) as (-> & quotes & -> & Hq).
    destruct (for_each_turns _ (fun x : string => x)
                (fun x => [HttpGet (AlphaVantage.rate_request s x);
                           HttpGet (AlphaVantage.daily_request s x)])
                (av_crypto_turn s) _ _ _ _ _ H2) as (-> & coins & -> & Hc).
    rewrite map_id in Hq, Hc. cbn [app] in *.
    exists quotes, coins. repeat split; [exact Hq | exact Hc |].
    rewrite requests_of_log, requests_of_app.
    now rewrite (requests_of_gets (AlphaVantage.intraday_request s)),
      (requests_of_pairs (AlphaVantage.rate_request s)
         (AlphaVantage.daily_request s)).
  - exfalso. revert H. unfold AlphaVantage.fetch_price_data.
    rewrite run_bind. unfold logger_info at 1. cbv beta iota.
    now rewrite run_bind, H1.
Qed.

Lemma alphavantage_stocks_then_symbols_witness :
  exists quotes coins,
    [{| symbol := "IBM"; price := "$161.50"; change_24h := "0.0%" |}]
    = (quotes ++ coins)%list
    /\ subseq (map symbol quotes) ["IBM"]
    /\ subseq (map symbol coins) ["BTC"]
    /\ requests_of (snd (AlphaVantage.fetch_price_data alpha_self
                           (intraday_world "161.5000")))
       = [AlphaVantage.intraday_request alpha_self "IBM";
          AlphaVantage.rate_request alpha_self "BTC";
          AlphaVantage.daily_request alpha_self "BTC"].
Proof.
  exact (alphavantage_stocks_then_symbols alpha_self (intraday_world "161.5000")
           _ _ eq_refl).
Defined.

Lemma av_stock_record_without_meta stock kv :
  assoc "Meta Data" kv = None ->
  AlphaVantage.stock_record stock (PDict kv) = builtin_error KeyError.
Proof.
  intros H. unfold AlphaVantage.stock_record.
  cbn [Py.getitem bind result_monad]. now rewrite H.
Qed.

Lemma av_crypto_record_without_meta sym current kv :
  assoc "Meta Data" kv = None ->
  AlphaVantage.crypto_record sym current (PDict kv) = builtin_error KeyError.
Proof.
  intros H. unfold AlphaVantage.crypto_record.
  cbn [Py.getitem bind result_monad]. now rewrite H.
Qed.

(** X14: when every answer is a JSON object without ["Meta Data"]
    (the rate-limit note of the provider, say), the AlphaVantage fetch
    returns the empty list after sending all its requests: one per
    ticker, two per symbol. *)
Theorem alphavantage_without_meta_data (s : AlphaVantage.self) (w : world) :
  (forall r, exists kv,
       decoded (network w r) = Some (PDict kv)
       /\ assoc "Meta Data" kv = None) ->
  fst (AlphaVantage.fetch_price_data s w) = Ok (Some [])
  /\ List.length (requests_of (snd (AlphaVantage.fetch_price_data s w)))
     = (S (count_commas (PriceAPI.stocks (AlphaVantage.base s)))
        + 2 * S (count_commas (PriceAPI.symbols (AlphaVantage.base s))))%nat.
Proof.
  intros H.
  assert (L1 : forall xs pd,
             for_each xs (AlphaVantage.stock_body s) pd w
             = (Ok pd, flat_map (fun x => [HttpGet (AlphaVantage.intraday_request s x)]) xs)).
  { induction xs as [| x xs IH]; intros pd; [reflexivity |].
    cbn [for_each flat_map]. rewrite run_bind, run_av_stock_body.
    destruct (H (AlphaVantage.intraday_request s x)) as (kv & Hd & Hm).
    unfold json. rewrite Hd, (av_stock_record_without_meta x kv Hm).
    cbn [builtin_error exn_cls exn_class_eqb]. cbv beta iota.
    now rewrite IH. }
  assert (L2 : forall xs pd,
             for_each xs (AlphaVantage.crypto_body s) pd w
             = (Ok pd, flat_map (fun x => [HttpGet (AlphaVantage.rate_request s x);
                                           HttpGet (AlphaVantage.daily_request s x)]) xs)).
  { induction xs as [| x xs IH]; intros pd; [reflexivity |].
    cbn [for_each flat_map]. rewrite run_bind, run_av_crypto_body.
    destruct (H (AlphaVantage.rate_request s x)) as (kc & Hc & _).
    destruct (H (AlphaVantage.daily_request s x)) as (kv & Hd & Hm).
    unfold json. rewrite Hc, Hd, (av_crypto_record_without_meta x _ kv Hm).
    cbn [builtin_error exn_cls exn_class_eqb]. cbv beta iota.
    now rewrite IH. }
  rewrite (run_av_fetch s w [] _ _ _ (L1 _ []) (L2 _ [])). cbn [fst snd].
  split; [reflexivity |].
  rewrite requests_of_log, requests_of_app.
  rewrite (requests_of_gets (AlphaVantage.intraday_request s)),
    (requests_of_pairs (AlphaVantage.rate_request s)
       (AlphaVantage.daily_request s)).
  rewrite length_app, length_map, split_comma_length. f_equal.
  rewrite <- split_comma_length.
  induction (Py.split_comma (PriceAPI.symbols (AlphaVantage.base s)))
    as [| x xs IH]; cbn in *; lia.
Qed.

Lemma alphavantage_without_meta_data_witness :
  fst (AlphaVantage.fetch_price_data alpha_pair_self rate_limited_world)
  = Ok (Some [])
  /\ List.length (requests_of (snd (AlphaVantage.fetch_price_data
                                      alpha_pair_self rate_limited_world)))
     = 5%nat.
Proof.
  apply (alphavantage_without_meta_data alpha_pair_self rate_limited_world).
  intros r. exists [("Note", PStr "API call frequency exceeded")].
  now split.
Defined.

(** X15: when the latest bar is the 9:30 bar itself, the open is that
    bar's own opening price, so the change reads ["0.0%"] (for a price
    that converts to a finite, non-zero float). *)
Theorem opening_bar_is_latest_zero_change (s : AlphaVantage.self) (w : world)
    (stock stamp : string) (response meta series bar p : pyval)
    (f : spec_float) (price_data : list price_record) :
  decoded (network w (AlphaVantage.intraday_request s stock)) = Some response ->
  Py.getitem response "Meta Data" = Ok meta ->
  Py.getitem meta "3. Last Refreshed" = Ok (PStr stamp) ->
  Py.getitem response "Time Series (30min)" = Ok series ->
  Py.getitem series stamp = Ok bar ->
  Py.getitem bar "1. open" = Ok p ->
  opening_bar_key stamp = stamp ->
  PyConv.float p = Ok f -> PyFloat.is_finite_nonzero f = true ->
  AlphaVantage.stock_body s stock price_data w =
  (Ok (price_data ++ [{| symbol := stock;
                         price := "$" ++ Fmt.fixed true 2 f;
                         change_24h := "0.0%" |}])%list,
   [HttpGet (AlphaVantage.intraday_request s stock)]).
Proof.
  intros Hr Hm Hs Ht Hb Hp Hk Hf Hn.
  rewrite run_av_stock_body. unfold json. rewrite Hr.
  unfold AlphaVantage.stock_record. cbn [bind result_monad].
  rewrite Hm, Hs, Ht.
  destruct (getitem_ok _ _ _ Hb) as (kv & -> & Eb).
  cbn [Py.subscript]. rewrite Hb, Hp.
  cbn [Py.bound_get AlphaVantage.opening_key Py.slice_to bind ret result_monad].
  fold (opening_bar_key stamp). rewrite Hk, Eb.
  destruct (getitem_ok _ _ _ Hp) as (b & -> & Ep).
  cbn [Py.get Py.bound_get]. rewrite Ep.
  now rewrite (make_record_same_price stock p f Hf Hn).
Qed.

Lemma opening_bar_is_latest_zero_change_witness :
  AlphaVantage.stock_body alpha_self "IBM" [] opening_world =
  (Ok [{| symbol := "IBM"; price := "$161.50"; change_24h := "0.0%" |}],
   [HttpGet (AlphaVantage.intraday_request alpha_self "IBM")]).
Proof.
  exact (opening_bar_is_latest_zero_change alpha_self opening_world
           "IBM" "2024-01-02 09:30:00" opening_body
           (PDict [("3. Last Refreshed", PStr "2024-01-02 09:30:00")])
           (PDict [("2024-01-02 09:30:00",
                     PDict [("1. open", PStr "161.5000")]);
                   ("2024-01-01 16:00:00",
                     PDict [("1. open", PStr "158.0000")])])
           (PDict [("1. open", PStr "161.5000")])
           (PStr "161.5000")
           (PyFloat.of_decimal false 1615000 (-4)) []
           eq_refl eq_refl eq_refl eq_refl eq_refl eq_refl eq_refl eq_refl
           eq_refl).
Defined.

Lemma float_error_not_key (p : pyval) (e : exn) :
  PyConv.float p = Raise e -> exn_class_eqb (exn_cls e) KeyError = false.
Proof.
  destruct p as [| | n | | t | |]; cbn; try discriminate;
    try (now intros [= <-]).
  - unfold Py.float_of_int. destruct (PyFloat.of_int n); [discriminate |].
    now intros [= <-].
  - destruct (FloatParse.float_of_string t); [discriminate |].
    now intros [= <-].
Qed.

(** X16: an opening price that [float()] rejects (a text that is not a
    number, a null) is not skipped: with the stamp, its bar and the
    price all present, the [ValueError] or [TypeError] of the
    conversion escapes the [except KeyError] of the stock loop. *)
Theorem unconvertible_price_escapes (s : AlphaVantage.self) (w : world)
    (stock stamp : string) (response meta series bar p : pyval)
    (e : exn) (price_data : list price_record) :
  decoded (network w (AlphaVantage.intraday_request s stock)) = Some response ->
  Py.getitem response "Meta Data" = Ok meta ->
  Py.getitem meta "3. Last Refreshed" = Ok (PStr stamp) ->
  Py.getitem response "Time Series (30min)" = Ok series ->
  Py.getitem series stamp = Ok bar ->
  Py.getitem bar "1. open" = Ok p ->
  Py.getitem series (opening_bar_key stamp) = builtin_error KeyError ->
  PyConv.float p = Raise e ->
  AlphaVantage.stock_body s stock price_data w =
  (Raise e, [HttpGet (AlphaVantage.intraday_request s stock)])
  /\ exn_cls e <> KeyError.
Proof.
  intros Hr Hm Hs Ht Hb Hp Ha Hf.
  pose proof (float_error_not_key p e Hf) as Hk.
  split; [| intros E; rewrite E in Hk; discriminate Hk].
  rewrite run_av_stock_body. unfold json. rewrite Hr.
  unfold AlphaVantage.stock_record. cbn [bind result_monad].
  rewrite Hm, Hs, Ht.
  destruct (getitem_ok _ _ _ Hb) as (kv & -> & Eb).
  cbn [Py.subscript]. rewrite Hb, Hp.
  cbn [Py.bound_get AlphaVantage.opening_key Py.slice_to bind ret result_monad].
  fold (opening_bar_key stamp).
  assert (En : assoc (opening_bar_key stamp) kv = None).
  { cbn in Ha. now destruct (assoc (opening_bar_key stamp) kv). }
  rewrite En. cbn [Py.get Py.bound_get assoc].
  unfold AlphaVantage.make_record, AlphaVantage.float_ratio.
  cbn [bind result_monad]. now rewrite Hf, Hk.
Qed.

Lemma unconvertible_price_escapes_witness :
  AlphaVantage.stock_body alpha_self "IBM" [] (intraday_world "N/A") =
  (Raise (Exn ValueError None),
   [HttpGet (AlphaVantage.intraday_request alpha_self "IBM")])
  /\ ValueError <> KeyError.
Proof.
  exact (unconvertible_price_escapes alpha_self (intraday_world "N/A")
           "IBM" "2024-01-02 16:00:00" (intraday_body "N/A")
           (PDict [("2. Symbol", PStr "IBM");
                   ("3. Last Refreshed", PStr "2024-01-02 16:00:00")])
           (PDict [("2024-01-02 16:00:00",
                     PDict [("1. open", PStr "N/A"); ("4. close", PStr "N/A")])])
           (PDict [("1. open", PStr "N/A"); ("4. close", PStr "N/A")])
           (PStr "N/A") (Exn ValueError None) []
           eq_refl eq_refl eq_refl eq_refl eq_refl eq_refl eq_refl eq_refl).
Defined.

(** ** All adapters *)

(** X17: an item that is skipped leaves no trace in the log: the only
    ERROR line any fetch writes is the decode error of CoinMarketCap. *)
Theorem skips_are_not_logged (i : instance) (w : world) :
  match i with
  | CoinMarketCap_obj s =>
      decoded (network w (CoinMarketCap.quotes_request s)) <> None
  | _ => True
  end ->
  filter is_error_log (snd (fetch_price_data i w)) = [].
Proof.
  destruct i as [s | s | s | s]; cbn [fetch_price_data]; intros H.
  - rewrite run_cmc_fetch_cases.
    destruct (decoded (network w (CoinMarketCap.quotes_request s)));
      [reflexivity | congruence].
  - clear H. revert w.
    change (silent is_error_log (CoinGecko.fetch_price_data s)).
    unfold CoinGecko.fetch_price_data, CoinGecko.coin_body, Quote.loop_body.
    repeat silent_step.
  - clear H. revert w.
    change (silent is_error_log (FinnHub.fetch_price_data s)).
    unfold FinnHub.fetch_price_data, Quote.loop_body.
    repeat silent_step.
  - clear H. revert w.
    change (silent is_error_log (AlphaVantage.fetch_price_data s)).
    unfold AlphaVantage.fetch_price_data, AlphaVantage.stock_body,
      AlphaVantage.crypto_body.
    repeat silent_step.
Qed.

Lemma skips_are_not_logged_witness :
  filter is_error_log
    (snd (fetch_price_data (CoinMarketCap_obj cmc_self)
            (cmc_world [("BTC", usd_quote [("price", PInt 2301)])]))) = []
  /\ filter is_error_log
       (snd (fetch_price_data (FinnHub_obj (finnhub_self "AAPL")) error_world))
     = [].
Proof.
  split.
  - apply (skips_are_not_logged (CoinMarketCap_obj cmc_self)). discriminate.
  - apply (skips_are_not_logged (FinnHub_obj (finnhub_self "AAPL"))). exact I.
Defined.

Lemma stock_record_float_quote stock v :
  float_quote v = true ->
  exists r, Quote.stock_record stock v = Ok r.
Proof.
  unfold float_quote. destruct v as [| | | | | | kv]; try discriminate.
  destruct (assoc "c" kv) as [[| | | c | | |] |] eqn:Ec; try discriminate.
  destruct (assoc "o" kv) as [[| | | o | | |] |] eqn:Eo; try discriminate.
  intros Hz. apply negb_true_iff in Hz.
  unfold Quote.stock_record. cbn [Py.getitem bind result_monad].
  rewrite Ec, Eo. unfold Py.truediv. rewrite Hz. cbn. now eexists.
Qed.

(** X18: when every quote has float prices with a non-zero open, the
    FinnHub fetch returns exactly one record per ticker of
    [stocks.split(',')], in the order of the tickers. *)
Theorem finnhub_one_record_per_ticker (s : FinnHub.self) (w : world) :
  (forall stock,
     exists v,
       decoded (network w (Quote.quote_request FinnHub.API stock
                             (FinnHub.api_key s))) = Some v
       /\ float_quote v = true) ->
  exists pd,
    fst (FinnHub.fetch_price_data s w) = Ok (Some pd)
    /\ map symbol pd = Py.split_comma (PriceAPI.stocks (FinnHub.base s)).
Proof.
  intros H.
  assert (L : forall xs pd0,
             exists added t,
               for_each xs (Quote.loop_body FinnHub.API (FinnHub.api_key s))
                 pd0 w = (Ok (pd0 ++ added)%list, t)
               /\ map symbol added = xs).
  { induction xs as [| x xs IH]; intros pd0.
    - exists [], []. cbn. now rewrite app_nil_r.
    - destruct (H x) as (v & Hd & Hq).
      destruct (stock_record_float_quote x v Hq) as (r & Hr).
      destruct (IH (pd0 ++ [r])%list) as (added & t & E & Hs).
      exists (r :: added), (HttpGet (Quote.quote_request FinnHub.API x
                                       (FinnHub.api_key s)) :: t).
      cbn [for_each]. rewrite run_bind, run_quote_loop_body.
      unfold json. rewrite Hd, Hr, E. cbn [app].
      rewrite <- app_assoc. split; [reflexivity |].
      cbn. now rewrite Hs, (stock_record_symbol _ _ _ Hr). }
  destruct (L (Py.split_comma (PriceAPI.stocks (FinnHub.base s))) [])
    as (added & t & E & Hs).
  exists added. rewrite (run_finnhub_fetch s w _ _ E). now split.
Qed.

Lemma finnhub_one_record_per_ticker_witness :
  exists pd,
    fst (FinnHub.fetch_price_data (finnhub_self "AAPL,MSFT") flat_quote_world)
    = Ok (Some pd)
    /\ map symbol pd = ["AAPL"; "MSFT"].
Proof.
  apply (finnhub_one_record_per_ticker (finnhub_self "AAPL,MSFT")
           flat_quote_world).
  intros stock. eexists. split; reflexivity.
Defined.
